(** * Weather -> Spotify: a shallow embedding of [final_copy.py]

    The program is a Streamlit script gluing three web services together.
    Its data are parsed JSON documents handled with Python's dynamic
    operations, so the embedding has three layers:

    - [value] and the module [Py]: JSON documents and the Python operations
      the script applies to them, each returning the exception Python raises
      when the operand has the wrong shape;
    - [World], [event] and the monad [M]: the services the script talks to
      (HTTP, the spotipy client, the clock, the Streamlit widgets) and the
      log of calls a run issues;
    - the functions of the script, under their own names. *)

From Stdlib Require Import QArith Qcanon ZArith Ascii String.
From stdpp Require Import base option list strings countable gmap.

Set Warnings "-register-all".
Local Open Scope string_scope.
Local Open Scope Z_scope.

(** ** JSON documents as Python sees them

    Numbers are rationals: every JSON integer and every finite float is one,
    and Python compares an [int] with a [float] exactly.  (Non-finite floats
    are outside the model.)  Strings are Rocq strings; objects keep their
    members in document order, one binding per name. *)

Inductive value : Type :=
| VNone
| VBool (b : bool)
| VNum (q : Q)
| VStr (s : string)
| VList (l : list value)
| VDict (kv : list (string * value)).

(** The exceptions the script can meet. *)
Inductive exn : Type :=
| KeyError | IndexError | TypeError | AttributeError
| RequestException      (* requests.get / requests.post failed *)
| JSONDecodeError       (* r.json() on a body that is not JSON *)
| SpotifyException      (* raised by the spotipy client *)
| StopException.        (* st.stop(): ends the current script run *)

Inductive result (A : Type) : Type :=
| Ok (a : A)
| Raise (e : exn).
Arguments Ok {A} a.
Arguments Raise {A} e.

Global Instance result_ret : MRet result := λ A a, Ok a.
Global Instance result_bind : MBind result := λ A B f m,
  match m with Ok a => f a | Raise e => Raise e end.
Global Instance result_fmap : FMap result := λ A B f m,
  match m with Ok a => Ok (f a) | Raise e => Raise e end.

(** Hashable values, as keys of a Python [dict]: [True == 1 == 1.0] hash
    alike, lists and dicts are unhashable. *)
Inductive key : Type :=
| KNone
| KNum (q : Qc)
| KStr (s : string).

Global Instance key_eq_dec : EqDecision key.
Proof. solve_decision. Defined.

Global Instance key_countable : Countable key.
Proof.
  refine (inj_countable'
    (λ k, match k with
          | KNone => inl (inl ())
          | KNum q => inl (inr q)
          | KStr s => inr s
          end)
    (λ x, match x with
          | inl (inl _) => KNone
          | inl (inr q) => KNum q
          | inr s => KStr s
          end) _).
  by intros [].
Defined.

Module Py.

(** [d[k]] / [d.get(k)] on the members of an object. *)
Fixpoint dict_get (k : string) (kv : list (string * value)) : option value :=
  match kv with
  | [] => None
  | (k', v) :: kv' => if String.eqb k' k then Some v else dict_get k kv'
  end.

(** [v[k]] with a string subscript. *)
Definition getitem (v : value) (k : string) : result value :=
  match v with
  | VDict kv => match dict_get k kv with
                | Some x => Ok x
                | None => Raise KeyError
                end
  | _ => Raise TypeError
  end.

(** [v[i]] with a non-negative integer literal. *)
Definition getindex (v : value) (i : nat) : result value :=
  match v with
  | VList l => match l !! i with
               | Some x => Ok x
               | None => Raise IndexError
               end
  | VStr s => match String.get i s with
              | Some c => Ok (VStr (String c ""))
              | None => Raise IndexError
              end
  | VDict _ => Raise KeyError
  | _ => Raise TypeError
  end.

(** [v.get(k, d)]: only dicts have the method. *)
Definition get (v : value) (k : string) (d : value) : result value :=
  match v with
  | VDict kv => Ok (default d (dict_get k kv))
  | _ => Raise AttributeError
  end.

(** Lower-casing of the letters A-Z; other characters stay as they are. *)
Definition lower_ascii (c : ascii) : ascii :=
  let n := nat_of_ascii c in
  if ((65 <=? n) && (n <=? 90))%nat then ascii_of_nat (n + 32) else c.

Fixpoint lower_string (s : string) : string :=
  match s with
  | EmptyString => EmptyString
  | String c s' => String (lower_ascii c) (lower_string s')
  end.

(** [v.lower()]: only strings have the method. *)
Definition lower (v : value) : result string :=
  match v with
  | VStr s => Ok (lower_string s)
  | _ => Raise AttributeError
  end.

(** Truth value of [v] in [if v] / [not v]. *)
Definition truthy (v : value) : bool :=
  match v with
  | VNone => false
  | VBool b => b
  | VNum q => negb (Qeq_bool q 0)
  | VStr s => negb (String.eqb s "")
  | VList l => negb (bool_decide (length l = 0%nat))
  | VDict kv => negb (bool_decide (length kv = 0%nat))
  end.

Fixpoint chars (s : string) : list value :=
  match s with
  | EmptyString => []
  | String c s' => VStr (String c "") :: chars s'
  end.

(** [for x in v]: the items [v] yields, or [TypeError] if not iterable. *)
Definition iter (v : value) : result (list value) :=
  match v with
  | VList l => Ok l
  | VStr s => Ok (chars s)
  | VDict kv => Ok ((λ p, VStr p.1) <$> kv)
  | _ => Raise TypeError
  end.

(** [v >= n] for an integer [n]. *)
Definition ge_int (v : value) (n : Z) : result bool :=
  match v with
  | VNum q => Ok (Qle_bool (inject_Z n) q)
  | VBool b => Ok (n <=? Z.b2z b)
  | _ => Raise TypeError
  end.

(** [v == n] for an integer [n]. *)
Definition eq_int (v : value) (n : Z) : bool :=
  match v with
  | VNum q => Qeq_bool q (inject_Z n)
  | VBool b => Z.b2z b =? n
  | _ => false
  end.

(** [l[:n]] on a Python list. *)
Definition slice_to {A : Type} (l : list A) (n : Z) : list A :=
  if 0 <=? n then take (Z.to_nat n) l
  else take (length l - Z.to_nat (- n)) l.

(** [v[:n]] on a value. *)
Definition slice (v : value) (n : Z) : result value :=
  match v with
  | VList l => Ok (VList (slice_to l n))
  | VStr s =>
      let len := if 0 <=? n then Z.to_nat n
                 else (String.length s - Z.to_nat (- n))%nat in
      Ok (VStr (String.substring 0 len s))
  | _ => Raise TypeError
  end.

(** [hash(v)], as needed to use [v] as a dict key. *)
Definition to_key (v : value) : result key :=
  match v with
  | VNone => Ok KNone
  | VBool b => Ok (KNum (Q2Qc (inject_Z (Z.b2z b))))
  | VNum q => Ok (KNum (Q2Qc q))
  | VStr s => Ok (KStr s)
  | _ => Raise TypeError
  end.

Definition as_str (v : value) : result string :=
  match v with
  | VStr s => Ok s
  | _ => Raise TypeError
  end.

(** [sep.join(l)]: every item must be a [str]. *)
Fixpoint join (sep : string) (l : list value) : result string :=
  match l with
  | [] => Ok ""
  | [v] => as_str v
  | v :: l' =>
      s ← as_str v;
      rest ← join sep l';
      Ok (s +:+ sep +:+ rest)
  end.

End Py.

(** ** The outside world and the log of a run *)

(** The [Authorization] header of a request: [HEADERS] is either empty or
    [{"Authorization": f"Bearer {APP_TOKEN}"}]. *)
Inductive headers : Type :=
| NoAuth
| Bearer (tok : value).

(** What [requests.get] / [requests.post] yields: the call raises, or a
    response arrives whose body parses as JSON ([Some]) or does not. *)
Inductive response : Type :=
| ConnectionFails
| Replies (body : option value).

(** Pieces of an f-string, in order. *)
Inductive piece : Type :=
| Lit (s : string)
| Fmt (v : value)
| ExnText (e : exn).

Inductive event : Type :=
| HttpGet (url : string) (hd : headers) (params : list (string * value))
| HttpPost (url : string) (data : list (string * value)) (auth : value * value)
| SpMe
| SpUserPlaylistCreate (user : value) (name : string) (public : bool)
                       (description : string)
| SpPlaylistAddItems (playlist_id : value) (items : list value)
| StError (msg : list piece)
| StSuccess (msg : list piece)
| StWarning (msg : string)
| StSubheader (msg : string)
| StColumns (n : nat)
| StMarkdown (col : option nat) (msg : list piece)
| StImage (col : nat) (url : value)
| StCaption (col : nat) (msg : string)
| StLinkButton (col : option nat) (label : string) (url : value).

(** The arguments of [SpotifyOAuth(...)]. *)
Record auth_manager : Type := SpotifyOAuth {
  client_id : value;
  client_secret : value;
  redirect_uri : value;
  scope : string;
  cache_path : string;
  show_dialog : bool
}.

(** The three methods of the spotipy client the script calls. *)
Record client : Type := {
  me : result value;
  user_playlist_create : value → string → bool → string → result value;
  playlist_add_items : value → list value → result value
}.

(** [datetime.now()], to the precision the script prints. *)
Record datetime : Type := {
  month : nat; day : nat; hour : nat; minute : nat
}.

(** The services, as functions of the request: a run asks each endpoint at
    most once. *)
Record World : Type := {
  OPENWEATHER_API_KEY : value;
  SPOTIFY_CLIENT_ID : value;
  SPOTIFY_CLIENT_SECRET : value;
  SPOTIFY_REDIRECT_URI : value;
  requests_get : string → headers → list (string * value) → response;
  requests_post : string → list (string * value) → value * value → response;
  spotipy_Spotify : auth_manager → client;
  datetime_now : datetime
}.

(** A computation of the script: the calls it issued, in order, and how it
    ended. *)
Record M (A : Type) : Type := Run {
  calls : list event;
  outcome : result A
}.
Arguments Run {A} calls outcome.
Arguments calls {A} m.
Arguments outcome {A} m.

Global Instance M_ret : MRet M := λ A a, Run [] (Ok a).
Global Instance M_bind : MBind M := λ A B f m,
  match outcome m with
  | Ok a => let m' := f a in Run (calls m ++ calls m') (outcome m')
  | Raise e => Run (calls m) (Raise e)
  end.

Definition lift {A : Type} (r : result A) : M A := Run [] r.
Definition emit (e : event) : M unit := Run [e] (Ok ()).

(** [try: m  except ...: h] *)
Definition try_except {A : Type} (m : M A) (h : exn → M A) : M A :=
  match outcome m with
  | Ok a => m
  | Raise e => let m' := h e in Run (calls m ++ calls m') (outcome m')
  end.

(** [requests.get(url, headers=hd, params=params)] *)
Definition http_get (W : World) (url : string) (hd : headers)
    (params : list (string * value)) : M (option value) :=
  emit (HttpGet url hd params);;
  match requests_get W url hd params with
  | ConnectionFails => lift (Raise RequestException)
  | Replies body => mret body
  end.

(** [requests.post(url, data=data, auth=auth)] *)
Definition http_post (W : World) (url : string) (data : list (string * value))
    (auth : value * value) : M (option value) :=
  emit (HttpPost url data auth);;
  match requests_post W url data auth with
  | ConnectionFails => lift (Raise RequestException)
  | Replies body => mret body
  end.

(** [r.json()] *)
Definition json (r : option value) : result value :=
  match r with
  | Some v => Ok v
  | None => Raise JSONDecodeError
  end.

(** [d.strftime('%m/%d %H:%M')] *)
Definition digit (n : nat) : ascii := ascii_of_nat (48 + n).
Definition two_digits (n : nat) : string :=
  String (digit (n / 10)) (String (digit (n mod 10)) "").
Definition strftime (d : datetime) : string :=
  two_digits (month d) +:+ "/" +:+ two_digits (day d) +:+ " " +:+
  two_digits (hour d) +:+ ":" +:+ two_digits (minute d).

(** ** The script *)

Definition get_spotify_client (W : World) : client :=
  spotipy_Spotify W
    (SpotifyOAuth (SPOTIFY_CLIENT_ID W) (SPOTIFY_CLIENT_SECRET W)
       (SPOTIFY_REDIRECT_URI W)
       "playlist-modify-private playlist-modify-public"
       ".spotifycache" true).

Definition weather_url : string :=
  "https://api.openweathermap.org/data/2.5/weather".

Definition weather_params (W : World) (city : string)
    : list (string * value) :=
  [("q", VStr city); ("appid", OPENWEATHER_API_KEY W);
   ("units", VStr "metric"); ("lang", VStr "kr")].

Definition get_weather (W : World) (city : string) : M value :=
  try_except
    (r ← http_get W weather_url NoAuth (weather_params W city);
     lift (json r))
    (λ _, mret VNone).

Definition mapping : gmap string string :=
  {[ "clear" := "happy pop bright";
     "clouds" := "indie chill";
     "rain" := "lofi rainy chill";
     "snow" := "cozy acoustic";
     "thunderstorm" := "dark edm" ]}.

Definition weather_to_keyword (weather : value) : result string :=
  w ← Py.getitem weather "weather";
  w0 ← Py.getindex w 0;
  main ← Py.getitem w0 "main";
  desc ← Py.lower main;
  Ok (default "chill mood" (mapping !! desc)).

Definition get_app_token (W : World) : M value :=
  let url := "https://accounts.spotify.com/api/token" in
  let data := [("grant_type", VStr "client_credentials")] in
  r ← http_post W url data (SPOTIFY_CLIENT_ID W, SPOTIFY_CLIENT_SECRET W);
  j ← lift (json r);
  lift (Py.get j "access_token" VNone).

(** [HEADERS = {"Authorization": f"Bearer {APP_TOKEN}"} if APP_TOKEN else {}] *)
Definition HEADERS (APP_TOKEN : value) : headers :=
  if Py.truthy APP_TOKEN then Bearer APP_TOKEN else NoAuth.

(** The functions below read the module-level [HEADERS]; here they take it
    as the argument [hd]. *)
Definition search_url : string := "https://api.spotify.com/v1/search".

Definition search_params (query : string) (limit : Z)
    : list (string * value) :=
  [("q", VStr query); ("type", VStr "track");
   ("limit", VNum (inject_Z limit))].

Definition search_tracks (W : World) (hd : headers) (query : string)
    (limit : Z) : M value :=
  try_except
    (r ← http_get W search_url hd (search_params query limit);
     j ← lift (json r);
     tracks ← lift (Py.getitem j "tracks");
     lift (Py.getitem tracks "items"))
    (λ _, mret (VList [])).

Definition get_audio_features (W : World) (hd : headers) (ids : list value)
    : M value :=
  let url := "https://api.spotify.com/v1/audio-features" in
  try_except
    (joined ← lift (Py.join "," ids);
     r ← http_get W url hd [("ids", VStr joined)];
     j ← lift (json r);
     lift (Py.getitem j "audio_features"))
    (λ _, mret (VList [])).

Definition generate_basic (W : World) (hd : headers) (weather : value)
    (track_limit : Z) : M value :=
  kw ← lift (weather_to_keyword weather);
  search_tracks W hd kw track_limit.

(** [ids = [t["id"] for t in base]] *)
Definition track_ids (base : value) : result (list value) :=
  ts ← Py.iter base;
  mapM (λ t, Py.getitem t "id") ts.

(** [fmap = {f["id"]: f for f in feats if f}]: later entries replace
    earlier ones under the same id. *)
Fixpoint fmap_insert_all (fs : list value) (fmap : gmap key value)
    : result (gmap key value) :=
  match fs with
  | [] => Ok fmap
  | f :: fs' =>
      if Py.truthy f then
        i ← Py.getitem f "id";
        k ← Py.to_key i;
        fmap_insert_all fs' (<[k := f]> fmap)
      else fmap_insert_all fs' fmap
  end.

Definition build_fmap (feats : value) : result (gmap key value) :=
  fs ← Py.iter feats;
  fmap_insert_all fs ∅.

(** The test of the loop body:
    [f = fmap.get(t["id"]);  f and f.get("tempo", 0) >= min_bpm] *)
Definition keeps (fmap : gmap key value) (min_bpm : Z) (t : value)
    : result bool :=
  i ← Py.getitem t "id";
  k ← Py.to_key i;
  let f := default VNone (fmap !! k) in
  if Py.truthy f then
    tempo ← Py.get f "tempo" (VNum 0);
    Py.ge_int tempo min_bpm
  else Ok false.

(** [result = []; for t in base: if ...: result.append(t)] *)
Fixpoint tempo_filter (fmap : gmap key value) (min_bpm : Z) (ts : list value)
    : result (list value) :=
  match ts with
  | [] => Ok []
  | t :: ts' =>
      b ← keeps fmap min_bpm t;
      rest ← tempo_filter fmap min_bpm ts';
      Ok (if (b : bool) then t :: rest else rest)
  end.

(** Lines 104-115 of [generate_tempo]: everything after the two fetches. *)
Definition tempo_select (base feats : value) (min_bpm track_limit : Z)
    : result value :=
  fmap ← build_fmap feats;
  ts ← Py.iter base;
  result ← tempo_filter fmap min_bpm ts;
  if negb (Py.truthy (VList result)) then Py.slice base track_limit
  else Ok (VList (Py.slice_to result track_limit)).

Definition generate_tempo (W : World) (hd : headers) (weather : value)
    (min_bpm track_limit : Z) : M value :=
  kw ← lift (weather_to_keyword weather);
  base ← search_tracks W hd (kw +:+ " upbeat dance") (track_limit * 3);
  ids ← lift (track_ids base);
  feats ← get_audio_features W hd ids;
  lift (tempo_select base feats min_bpm track_limit).

Definition generate_custom (W : World) (hd : headers) (weather : value)
    (user_kw : string) (track_limit : Z) : M value :=
  kw ← lift (weather_to_keyword weather);
  search_tracks W hd (kw +:+ " " +:+ user_kw) track_limit.

Definition playlist_name (W : World) (city : string) : string :=
  "Weather Mix - " +:+ city +:+ " (" +:+ strftime (datetime_now W) +:+ ")".

Definition playlist_description : string :=
  "날씨 기반 자동 추천 플레이리스트".

Definition create_playlist_auto (W : World) (city : string)
    (ids : list value) : M value :=
  let sp := get_spotify_client W in
  emit SpMe;;
  profile ← lift (me sp);
  user_id ← lift (Py.getitem profile "id");
  let name := playlist_name W city in
  emit (SpUserPlaylistCreate user_id name false playlist_description);;
  playlist ← lift (user_playlist_create sp user_id name false
                     playlist_description);
  pid ← lift (Py.getitem playlist "id");
  emit (SpPlaylistAddItems pid ids);;
  lift (playlist_add_items sp pid ids);;
  urls ← lift (Py.getitem playlist "external_urls");
  lift (Py.getitem urls "spotify").

(** ** The run block (what happens when the button is pressed) *)

Inductive mode : Type :=
| Basic
| Tempo (min_bpm : Z)
| Custom (user_kw : string).

(** The widgets' values at the time of the click. *)
Record inputs : Type := {
  city : string;
  selected : mode;
  track_limit : Z;
  make_playlist : bool
}.

Definition weather_error : string := "날씨 정보를 찾을 수 없습니다.".

(** [st.stop()] *)
Definition stop {A : Type} : M A := lift (Raise StopException).

(** [not weather or weather.get("cod") != 200] *)
Definition weather_failed (weather : value) : result bool :=
  if negb (Py.truthy weather) then Ok true
  else
    cod ← Py.get weather "cod" VNone;
    Ok (negb (Py.eq_int cod 200)).

(** The tracks of the selected mode (lines 180-187). *)
Definition generate (W : World) (hd : headers) (weather : value)
    (inp : inputs) : M value :=
  match selected inp with
  | Basic => generate_basic W hd weather (track_limit inp)
  | Tempo min_bpm => generate_tempo W hd weather min_bpm (track_limit inp)
  | Custom user_kw => generate_custom W hd weather user_kw (track_limit inp)
  end.

(** The body of [for i, t in enumerate(tracks)], from index [i] on; yields
    the [ids] appended. *)
Fixpoint render (i : nat) (ts : list value) : M (list value) :=
  match ts with
  | [] => mret []
  | t :: ts' =>
      let col := (i mod 3)%nat in
      album ← lift (Py.getitem t "album");
      images ← lift (Py.getitem album "images");
      image ← lift (Py.getindex images 0);
      url ← lift (Py.getitem image "url");
      emit (StImage col url);;
      name ← lift (Py.getitem t "name");
      emit (StMarkdown (Some col) [Lit "**"; Fmt name; Lit "**"]);;
      artists ← lift (Py.getitem t "artists");
      arts ← lift (Py.iter artists);
      names ← lift (mapM (λ a, Py.getitem a "name") arts);
      caption ← lift (Py.join ", " names);
      emit (StCaption col caption);;
      urls ← lift (Py.getitem t "external_urls");
      link ← lift (Py.getitem urls "spotify");
      emit (StLinkButton (Some col) "🎧 Spotify에서 듣기" link);;
      uri ← lift (Py.getitem t "uri");
      rest ← render (S i) ts';
      mret (uri :: rest)
  end.

Definition run (W : World) (hd : headers) (inp : inputs) : M unit :=
  weather ← get_weather W (city inp);
  failed ← lift (weather_failed weather);
  if (failed : bool) then
    emit (StError [Lit weather_error]);;
    stop
  else
    w ← lift (Py.getitem weather "weather");
    w0 ← lift (Py.getindex w 0);
    description ← lift (Py.getitem w0 "description");
    main ← lift (Py.getitem weather "main");
    temp ← lift (Py.getitem main "temp");
    emit (StSuccess [Fmt (VStr (city inp)); Lit " 현재 날씨: ";
                     Fmt description; Lit " / "; Fmt temp; Lit "°C"]);;
    tracks ← generate W hd weather inp;
    if negb (Py.truthy tracks) then
      emit (StWarning "추천 결과가 없습니다.");;
      stop
    else
      emit (StSubheader "🎶 추천 트랙");;
      emit (StColumns 3);;
      ts ← lift (Py.iter tracks);
      ids ← render 0 ts;
      if make_playlist inp then
        emit (StMarkdown None [Lit "## 📀 Spotify 플레이리스트 생성 중..."]);;
        try_except
          (link ← create_playlist_auto W (city inp) ids;
           emit (StSuccess [Lit "✅ 플레이리스트 생성 완료!"]);;
           emit (StLinkButton None "🎶 Spotify에서 열기" link))
          (λ e, emit (StError [Lit "플레이리스트 생성 실패: "; ExnText e]))
      else mret ().

(** Module start-up: [APP_TOKEN = get_app_token()] and [HEADERS]. *)
Definition startup (W : World) : M headers :=
  APP_TOKEN ← get_app_token W;
  mret (HEADERS APP_TOKEN).

(** ** Shapes of the documents, after the data model

    A weather reading as the weather service renders it ([cod] 200, the
    condition under [weather[0].main]). *)
Record WeatherReading : Type := {
  reading_city : string;
  condition : string;
  description : string;
  temperature_celsius : Q
}.

Definition reading_json (r : WeatherReading) : value :=
  VDict [("cod", VNum 200);
         ("name", VStr (reading_city r));
         ("weather", VList [VDict [("main", VStr (condition r));
                                   ("description", VStr (description r))]]);
         ("main", VDict [("temp", VNum (temperature_celsius r))])].

(** A track record has a string [id]; an entry of the audio-features
    answer is [null] or a record with a string [id] and, when present, a
    numeric [tempo]. *)
Definition is_track (t : value) : bool :=
  match t with
  | VDict kv => match Py.dict_get "id" kv with
                | Some (VStr _) => true
                | _ => false
                end
  | _ => false
  end.

Definition is_feature_entry (f : value) : bool :=
  match f with
  | VNone => true
  | VDict kv =>
      match Py.dict_get "id" kv, Py.dict_get "tempo" kv with
      | Some (VStr _), (None | Some (VNum _)) => true
      | _, _ => false
      end
  | _ => false
  end.

(** [f] is a (non-null) feature record for the track id [s]. *)
Definition entry_for (s : string) (f : value) : Prop :=
  ∃ kv, f = VDict kv ∧ Py.dict_get "id" kv = Some (VStr s).

(** The audio-features answer [feats] has a non-null entry for track [t]. *)
Definition has_feature (feats : list value) (t : value) : Prop :=
  ∃ s f, Py.getitem t "id" = Ok (VStr s) ∧ f ∈ feats ∧ entry_for s f.

(** A Tempo-mode run in which the catalog search answers with the candidate
    pool [pool] and the audio-features call with the entries [feats]. *)
Definition fetches (W : World) (hd : headers) (weather : value)
    (track_limit : Z) (pool feats : list value) : Prop :=
  ∃ kw ids,
    weather_to_keyword weather = Ok kw ∧
    outcome (search_tracks W hd (kw +:+ " upbeat dance") (track_limit * 3))
      = Ok (VList pool) ∧
    track_ids (VList pool) = Ok ids ∧
    outcome (get_audio_features W hd ids) = Ok (VList feats).

Global Instance exn_eq_dec : EqDecision exn.
Proof. solve_decision. Defined.

Global Instance result_eq_dec {A : Type} `{EqDecision A} :
  EqDecision (result A).
Proof. solve_decision. Defined.

(** The candidates of [ts] that pass the tempo test, in their order. *)
Definition passing (fmap : gmap key value) (min_bpm : Z) (ts : list value)
    : list value :=
  filter (λ t, keeps fmap min_bpm t = Ok true) ts.

(** Every record stored in the lookup is a well-formed feature record
    filed under its own id. *)
Definition fmap_wf (fmap : gmap key value) : Prop :=
  ∀ k f, fmap !! k = Some f →
    is_feature_entry f = true ∧ ∃ s, k = KStr s ∧ entry_for s f.

(** What lines 112-115 pick before slicing: the filtered list, or the whole
    pool when the filtered list is empty. *)
Definition chosen (pool kept : list value) : list value :=
  match kept with [] => pool | _ => kept end.

(** ** Conditions on the environment *)

(** The catalog search gives back no more items than the limit it is
    asked for. *)
Definition catalog_honours_limit (W : World) (hd : headers) : Prop :=
  ∀ query limit items,
    outcome (search_tracks W hd query limit) = Ok (VList items) →
    Z.of_nat (length items) ≤ limit.

Definition is_tempo (m : mode) : bool :=
  match m with Tempo _ => true | _ => false end.

(** The weather lookup brings nothing usable: the request raises, the body
    is not JSON or is empty, or the document's status [cod] is not 200. *)
Definition status_ok (kv : list (string * value)) : bool :=
  Py.eq_int (default VNone (Py.dict_get "cod" kv)) 200.

Definition weather_unavailable (r : response) : bool :=
  match r with
  | ConnectionFails | Replies None => true
  | Replies (Some (VDict kv)) => negb (status_ok kv)
  | Replies (Some v) => negb (Py.truthy v)
  end.

(** The pattern [MM/DD HH:MM]. *)
Definition is_digit (c : ascii) : bool :=
  ((48 <=? nat_of_ascii c) && (nat_of_ascii c <=? 57))%nat.

Definition matches_stamp (s : string) : bool :=
  match list_ascii_of_string s with
  | [m1; m2; sep1; d1; d2; sep2; h1; h2; sep3; n1; n2] =>
      is_digit m1 && is_digit m2 && Ascii.eqb sep1 "/" &&
      is_digit d1 && is_digit d2 && Ascii.eqb sep2 " " &&
      is_digit h1 && is_digit h2 && Ascii.eqb sep3 ":" &&
      is_digit n1 && is_digit n2
  | _ => false
  end.

Definition valid_datetime (d : datetime) : bool :=
  ((1 <=? month d) && (month d <=? 12) && (1 <=? day d) && (day d <=? 31) &&
   (hour d <? 24) && (minute d <? 60))%nat.

(** What [get_weather] hands back for an answer of the weather service. *)
Definition weather_document (r : response) : value :=
  match r with Replies (Some v) => v | _ => VNone end.

(** ** Sample documents and a scripted world

    A world that answers the weather lookup with [w], the catalog search
    with the tracks [pool] and the audio-features call with [feats]. *)
Definition track (i : string) : value :=
  VDict [("id", VStr i);
         ("name", VStr ("song " +:+ i));
         ("artists", VList [VDict [("name", VStr "artist")]]);
         ("album", VDict [("images", VList [VDict [("url", VStr "https://i.scdn.co/image/x")]])]);
         ("external_urls", VDict [("spotify", VStr ("https://open.spotify.com/track/" +:+ i))]);
         ("uri", VStr ("spotify:track:" +:+ i))].

Definition feature (i : string) (tempo : Q) : value :=
  VDict [("id", VStr i); ("tempo", VNum tempo)].

Definition feature_without_tempo (i : string) : value :=
  VDict [("id", VStr i); ("energy", VNum (1 # 2))].

Definition seoul_clear : WeatherReading :=
  {| reading_city := "Seoul"; condition := "Clear";
     description := "맑음"; temperature_celsius := 43 # 2 |}.

Definition sample_client : client :=
  {| me := Ok (VDict [("id", VStr "user1")]);
     user_playlist_create := λ _ _ _ _,
       Ok (VDict [("id", VStr "pl1");
                  ("external_urls",
                   VDict [("spotify", VStr "https://open.spotify.com/playlist/pl1")])]);
     playlist_add_items := λ _ _, Ok (VDict [("snapshot_id", VStr "s1")]) |}.

Definition scripted (w : option value) (pool feats : list value) : World :=
  {| OPENWEATHER_API_KEY := VStr "owm-key";
     SPOTIFY_CLIENT_ID := VStr "id";
     SPOTIFY_CLIENT_SECRET := VStr "secret";
     SPOTIFY_REDIRECT_URI := VStr "http://localhost:8501";
     requests_get := λ url _ _,
       if String.eqb url weather_url
       then Replies w
       else if String.eqb url search_url
       then Replies (Some (VDict [("tracks", VDict [("items", VList pool)])]))
       else Replies (Some (VDict [("audio_features", VList feats)]));
     requests_post := λ _ _ _,
       Replies (Some (VDict [("access_token", VStr "app-token")]));
     spotipy_Spotify := λ _, sample_client;
     datetime_now := {| month := 11; day := 4; hour := 9; minute := 5 |} |}.

(** A world with no network: every request raises. *)
Definition offline : World :=
  {| OPENWEATHER_API_KEY := VStr "owm-key";
     SPOTIFY_CLIENT_ID := VStr "id";
     SPOTIFY_CLIENT_SECRET := VStr "secret";
     SPOTIFY_REDIRECT_URI := VStr "http://localhost:8501";
     requests_get := λ _ _ _, ConnectionFails;
     requests_post := λ _ _ _, ConnectionFails;
     spotipy_Spotify := λ _, sample_client;
     datetime_now := {| month := 11; day := 4; hour := 9; minute := 5 |} |}.

(** A world whose token endpoint answers with [body]. *)
Definition token_answers (body : option value) : World :=
  {| OPENWEATHER_API_KEY := VStr "owm-key";
     SPOTIFY_CLIENT_ID := VStr "id";
     SPOTIFY_CLIENT_SECRET := VStr "secret";
     SPOTIFY_REDIRECT_URI := VStr "http://localhost:8501";
     requests_get := λ _ _ _, ConnectionFails;
     requests_post := λ _ _ _, Replies body;
     spotipy_Spotify := λ _, sample_client;
     datetime_now := {| month := 11; day := 4; hour := 9; minute := 5 |} |}.

(** The sample runs used below: Seoul under a clear sky, an application
    token in the headers. *)
Definition seoul : value := reading_json seoul_clear.
Definition app_headers : headers := Bearer (VStr "app-token").

(** Two candidates; the catalog has no features for the first. *)
Definition world_one_null : World :=
  scripted (Some seoul) [track "a"; track "b"] [VNone; feature "b" 128].

(** One candidate, and a null feature entry for it. *)
Definition world_only_null : World :=
  scripted (Some seoul) [track "a"] [VNone].

(** Three candidates, all at 120 BPM or more. *)
Definition world_all_fast : World :=
  scripted (Some seoul) [track "a"; track "b"; track "c"]
    [feature "a" 120; feature "b" (2571 # 20); feature "c" 140].

(** Two candidates; the record of the second has no tempo. *)
Definition world_no_tempo : World :=
  scripted (Some seoul) [track "a"; track "b"]
    [feature "a" 128; feature_without_tempo "b"].

(** Six candidates at 120 BPM or more. *)
Definition six_tracks : list value :=
  [track "a"; track "b"; track "c"; track "d"; track "e"; track "f"].

Definition world_six : World :=
  scripted (Some seoul) six_tracks
    [feature "a" 120; feature "b" 121; feature "c" 122;
     feature "d" 123; feature "e" 124; feature "f" 125].

Definition basic_5 : inputs :=
  {| city := "Seoul"; selected := Basic; track_limit := 5;
     make_playlist := false |}.

Definition tempo_5 : inputs :=
  {| city := "Seoul"; selected := Tempo 110; track_limit := 5;
     make_playlist := false |}.

Definition tempo_publish : inputs :=
  {| city := "Seoul"; selected := Tempo 110; track_limit := 5;
     make_playlist := true |}.

(** The weather service does not know the city. *)
Definition world_404 : World :=
  scripted (Some (VDict [("cod", VStr "404");
                         ("message", VStr "city not found")]))
    six_tracks [].

Definition ten_uris : list value :=
  (λ n, VStr ("spotify:track:" +:+ n)) <$>
  ["0"; "1"; "2"; "3"; "4"; "5"; "6"; "7"; "8"; "9"].

(** ** Further shapes and sample worlds *)

Definition features_url : string :=
  "https://api.spotify.com/v1/audio-features".

Definition is_VStr (v : value) : bool :=
  match v with VStr _ => true | _ => false end.

(** What [search_tracks] digs out of an answer of the search endpoint. *)
Definition search_items (r : response) : value :=
  match r with
  | Replies (Some (VDict kv)) =>
      match Py.dict_get "tracks" kv with
      | Some (VDict kv') => default (VList []) (Py.dict_get "items" kv')
      | _ => VList []
      end
  | _ => VList []
  end.

(** What [get_audio_features] digs out of an answer of its endpoint. *)
Definition features_of (r : response) : value :=
  match r with
  | Replies (Some (VDict kv)) =>
      default (VList []) (Py.dict_get "audio_features" kv)
  | _ => VList []
  end.

Definition upper_ascii (c : ascii) : ascii :=
  let n := nat_of_ascii c in
  if ((97 <=? n) && (n <=? 122))%nat then ascii_of_nat (n - 32) else c.

Fixpoint upper_string (s : string) : string :=
  match s with
  | EmptyString => EmptyString
  | String c s' => String (upper_ascii c) (upper_string s')
  end.

Definition with_condition (r : WeatherReading) (c : string) : WeatherReading :=
  {| reading_city := reading_city r; condition := c;
     description := description r;
     temperature_celsius := temperature_celsius r |}.

(** One candidate whose feature record carries a null tempo. *)
Definition feature_null_tempo (i : string) : value :=
  VDict [("id", VStr i); ("tempo", VNone)].

Definition world_null_tempo : World :=
  scripted (Some seoul) [track "a"] [feature_null_tempo "a"].

(** Two candidates and no feature entries. *)
Definition world_no_features : World :=
  scripted (Some seoul) [track "a"; track "b"] [].

(** Lines 205-212 of the run block, under [if make_playlist]. *)
Definition publish (W : World) (city : string) (ids : list value) : M unit :=
  emit (StMarkdown None [Lit "## 📀 Spotify 플레이리스트 생성 중..."]);;
  try_except
    (link ← create_playlist_auto W city ids;
     emit (StSuccess [Lit "✅ 플레이리스트 생성 완료!"]);;
     emit (StLinkButton None "🎶 Spotify에서 열기" link))
    (λ e, emit (StError [Lit "플레이리스트 생성 실패: "; ExnText e])).

(** Lines 189-212 of the run block: what is done with the tracks. *)
Definition present (W : World) (inp : inputs) (tracks : value) : M unit :=
  if negb (Py.truthy tracks) then
    emit (StWarning "추천 결과가 없습니다.");;
    stop
  else
    emit (StSubheader "🎶 추천 트랙");;
    emit (StColumns 3);;
    ts ← lift (Py.iter tracks);
    ids ← render 0 ts;
    if make_playlist inp then publish W (city inp) ids else mret ().

(** The success line of a run, for a weather reading. *)
Definition weather_line (city : string) (r : WeatherReading) : event :=
  StSuccess [Fmt (VStr city); Lit " 현재 날씨: "; Fmt (VStr (description r));
             Lit " / "; Fmt (VNum (temperature_celsius r)); Lit "°C"].

Definition is_spotipy_call (e : event) : bool :=
  match e with
  | SpMe | SpUserPlaylistCreate _ _ _ _ | SpPlaylistAddItems _ _ => true
  | _ => false
  end.

(** The same world with another spotipy client. *)
Definition with_client (W : World) (c : client) : World :=
  {| OPENWEATHER_API_KEY := OPENWEATHER_API_KEY W;
     SPOTIFY_CLIENT_ID := SPOTIFY_CLIENT_ID W;
     SPOTIFY_CLIENT_SECRET := SPOTIFY_CLIENT_SECRET W;
     SPOTIFY_REDIRECT_URI := SPOTIFY_REDIRECT_URI W;
     requests_get := requests_get W;
     requests_post := requests_post W;
     spotipy_Spotify := λ _, c;
     datetime_now := datetime_now W |}.

(** The user refuses the consent dialog: every client call raises. *)
Definition denied_client : client :=
  {| me := Raise SpotifyException;
     user_playlist_create := λ _ _ _ _, Raise SpotifyException;
     playlist_add_items := λ _ _, Raise SpotifyException |}.

(** The playlist is created, adding the tracks is refused. *)
Definition add_refused_client : client :=
  {| me := me sample_client;
     user_playlist_create := user_playlist_create sample_client;
     playlist_add_items := λ _ _, Raise SpotifyException |}.

(** The catalog finds nothing. *)
Definition world_empty_search : World := scripted (Some seoul) [] [].

(** The weather service answers 200 with no conditions. *)
Definition world_no_conditions : World :=
  scripted (Some (VDict [("cod", VNum 200); ("name", VStr "Seoul")]))
    six_tracks [].

Definition basic_publish : inputs :=
  {| city := "Seoul"; selected := Basic; track_limit := 5;
     make_playlist := true |}.

(** A computation that never calls the spotipy client. *)
Definition no_spotipy {A : Type} (m : M A) : Prop :=
  Forall (λ e, is_spotipy_call e = false) (calls m).

Definition six_uris : list value :=
  (λ i, VStr ("spotify:track:" +:+ i)) <$> ["a"; "b"; "c"; "d"; "e"; "f"].

Definition world_denied : World := with_client world_six denied_client.
Definition world_add_refused : World := with_client world_six add_refused_client.

(** * Properties *)

(** ** The monads *)

Lemma result_bind_Ok {A B : Type} (a : A) (f : A → result B) :
  Ok a ≫= f = f a.
Proof. reflexivity. Qed.

Lemma outcome_bind_Ok {A B : Type} (m : M A) (f : A → M B) (a : A) :
  outcome m = Ok a → outcome (m ≫= f) = outcome (f a).
Proof. intros H. unfold mbind, M_bind. by rewrite H. Qed.

Lemma calls_bind_Ok {A B : Type} (m : M A) (f : A → M B) (a : A) :
  outcome m = Ok a → calls (m ≫= f) = (calls m ++ calls (f a))%list.
Proof. intros H. unfold mbind, M_bind. by rewrite H. Qed.

Lemma outcome_lift_bind {A B : Type} (r : result A) (f : A → M B) (a : A) :
  r = Ok a → lift r ≫= f = f a.
Proof. intros ->. unfold mbind, M_bind, lift. simpl. by destruct (f a). Qed.

Lemma bind_Run_Ok {A B : Type} (l : list event) (a : A) (f : A → M B) :
  Run l (Ok a) ≫= f = Run (l ++ calls (f a)) (outcome (f a)).
Proof. reflexivity. Qed.

Lemma emit_bind {B : Type} (e : event) (f : unit → M B) :
  emit e ≫= f = Run (e :: calls (f ())) (outcome (f ())).
Proof. reflexivity. Qed.

(** One step of a run: replace a call whose outcome is known. *)
Ltac step H :=
  first [ rewrite (outcome_lift_bind _ _ _ H)
        | rewrite (outcome_bind_Ok _ _ _ H) ].

Lemma try_except_outcome_Ok {A : Type} (m : M A) (v : A) :
  ∃ a, outcome (try_except m (λ _, mret v)) = Ok a.
Proof.
  unfold try_except. destruct (outcome m) eqn:E; [by exists a | by exists v].
Qed.

(** ** Tempo mode: the feature lookup and the filter *)

Section tempo_filter.

Implicit Types (fmap : gmap key value) (t f : value) (s : string).

Lemma is_track_id t :
  is_track t = true → ∃ s, Py.getitem t "id" = Ok (VStr s).
Proof.
  destruct t as [| | | |?|kv]; try done. simpl.
  destruct (Py.dict_get "id" kv) as [[| | |s| |]|]; try done. by exists s.
Qed.

Lemma is_feature_entry_cases f :
  is_feature_entry f = true →
  f = VNone ∨
  ∃ kv s, f = VDict kv ∧ Py.dict_get "id" kv = Some (VStr s) ∧
          (Py.dict_get "tempo" kv = None ∨
           ∃ q, Py.dict_get "tempo" kv = Some (VNum q)).
Proof.
  destruct f as [| | | |?|kv]; try done; [by left|]. simpl. intros H. right.
  destruct (Py.dict_get "id" kv) as [[| | |s| |]|] eqn:Ei; try done.
  exists kv, s. split_and!; try done.
  destruct (Py.dict_get "tempo" kv) as [[| |q| | |]|]; try done; eauto.
Qed.

Lemma dict_get_truthy k kv v :
  Py.dict_get k kv = Some v → Py.truthy (VDict kv) = true.
Proof. by destruct kv. Qed.

Lemma fmap_insert_all_spec (fs : list value) fmap :
  Forall (λ f, is_feature_entry f = true) fs →
  ∃ fmap', fmap_insert_all fs fmap = Ok fmap' ∧
    (∀ k f, fmap' !! k = Some f →
       fmap !! k = Some f ∨
       (f ∈ fs ∧ is_feature_entry f = true ∧ ∃ s, k = KStr s ∧ entry_for s f)) ∧
    (∀ k, is_Some (fmap !! k) → is_Some (fmap' !! k)) ∧
    (∀ s f, f ∈ fs → entry_for s f → is_Some (fmap' !! KStr s)).
Proof.
  intros Hfs. revert fmap.
  induction Hfs as [|f fs Hf _ IH]; intros fmap.
  - exists fmap. split_and!; [done|auto|done|].
    intros s f Hin. by apply elem_of_nil in Hin.
  - destruct (is_feature_entry_cases f Hf)
      as [->|(kv & s & -> & Hid & _)].
    + destruct (IH fmap) as (fmap' & Hrun & Hfrom & Hkeep & Hin).
      exists fmap'. split_and!; [done| |done|].
      * intros k f Hk. destruct (Hfrom k f Hk) as [?|(?&?)]; [by left|].
        right. split; [by apply elem_of_cons; right|done].
      * intros s f [->|Hf']%elem_of_cons He.
        -- by destruct He as [kv [? _]].
        -- by apply Hin with f.
    + destruct (IH (<[KStr s := VDict kv]> fmap))
        as (fmap' & Hrun & Hfrom & Hkeep & Hin).
      exists fmap'. split_and!.
      * cbn [fmap_insert_all]. rewrite (dict_get_truthy _ _ _ Hid).
        unfold Py.getitem. rewrite Hid. exact Hrun.
      * intros k f Hk. destruct (Hfrom k f Hk) as [Hins|(?&?)].
        -- destruct (decide (KStr s = k)) as [<-|Hne].
           ++ rewrite lookup_insert_eq in Hins. injection Hins as <-.
              right. split_and!; [by apply elem_of_cons; left|done|].
              exists s. split; [done|]. by exists kv.
           ++ rewrite lookup_insert_ne in Hins by done. by left.
        -- right. split; [by apply elem_of_cons; right|done].
      * intros k Hk. apply Hkeep.
        destruct (decide (KStr s = k)) as [<-|Hne].
        -- rewrite lookup_insert_eq. eauto.
        -- by rewrite lookup_insert_ne.
      * intros s' f [->|Hf']%elem_of_cons He.
        -- destruct He as (kv' & [= <-] & Hid'). rewrite Hid in Hid'.
           injection Hid' as <-. apply Hkeep. rewrite lookup_insert_eq. eauto.
        -- by apply Hin with f.
Qed.

Lemma build_fmap_spec (feats : list value) :
  Forall (λ f, is_feature_entry f = true) feats →
  ∃ fmap, build_fmap (VList feats) = Ok fmap ∧ fmap_wf fmap ∧
    (∀ s, is_Some (fmap !! KStr s) ↔ ∃ f, f ∈ feats ∧ entry_for s f).
Proof.
  intros Hfs.
  destruct (fmap_insert_all_spec feats ∅ Hfs) as (fmap & Hrun & Hfrom & _ & Hin).
  exists fmap. split_and!; [done| |].
  - intros k f Hk. destruct (Hfrom k f Hk) as [Hk'|(_ & ? & ?)]; [|done].
    by rewrite lookup_empty in Hk'.
  - intros s. split.
    + intros [f Hk]. destruct (Hfrom _ _ Hk) as [Hk'|(? & _ & s' & [= <-] & ?)].
      * by rewrite lookup_empty in Hk'.
      * by exists f.
    + intros (f & ? & ?). by apply Hin with f.
Qed.

End tempo_filter.

Section tempo_select.

Implicit Types (fmap : gmap key value) (t f : value) (s : string).
Implicit Types (pool feats kept : list value) (min_bpm track_limit : Z).

Lemma keeps_total fmap min_bpm t :
  fmap_wf fmap → is_track t = true → ∃ b, keeps fmap min_bpm t = Ok b.
Proof.
  intros Hwf [s Hs]%is_track_id. unfold keeps. rewrite Hs. cbn.
  destruct (fmap !! KStr s) as [f|] eqn:Hk; cbn; [|by exists false].
  destruct (Hwf _ _ Hk) as [Hf _].
  destruct (is_feature_entry_cases f Hf) as [->|(kv & s' & -> & Hid & Ht)].
  { by exists false. }
  rewrite (dict_get_truthy _ _ _ Hid). cbn.
  destruct Ht as [->|[q ->]]; cbn; eauto.
Qed.

Lemma keeps_true_lookup fmap min_bpm t s :
  Py.getitem t "id" = Ok (VStr s) → keeps fmap min_bpm t = Ok true →
  is_Some (fmap !! KStr s).
Proof.
  intros Hs. unfold keeps. rewrite Hs. cbn.
  destruct (fmap !! KStr s) as [f|]; [eauto|]. by cbn.
Qed.

Lemma keeps_no_tempo fmap min_bpm t s kv :
  Py.getitem t "id" = Ok (VStr s) →
  fmap !! KStr s = Some (VDict kv) →
  Py.dict_get "tempo" kv = None →
  0 < min_bpm →
  keeps fmap min_bpm t = Ok false.
Proof.
  intros Hs Hk Ht Hmin. unfold keeps. rewrite Hs. cbn. rewrite Hk. cbn.
  destruct (negb _); [|done]. rewrite Ht. cbn. f_equal.
  unfold Qle_bool. cbn. apply Z.leb_gt. lia.
Qed.

Lemma tempo_filter_Ok fmap min_bpm pool kept :
  tempo_filter fmap min_bpm pool = Ok kept → kept = passing fmap min_bpm pool.
Proof.
  revert kept. induction pool as [|t pool IH]; intros kept H; cbn in H.
  { by injection H as <-. }
  destruct (keeps fmap min_bpm t) as [b|] eqn:Hb; cbn in H; [|done].
  destruct (tempo_filter fmap min_bpm pool) as [rest|]; cbn in H; [|done].
  injection H as <-. rewrite (IH rest eq_refl). unfold passing.
  destruct b.
  - by rewrite filter_cons_True.
  - by rewrite filter_cons_False by (rewrite Hb; congruence).
Qed.

Lemma tempo_filter_total fmap min_bpm pool :
  Forall (λ t, ∃ b, keeps fmap min_bpm t = Ok b) pool →
  tempo_filter fmap min_bpm pool = Ok (passing fmap min_bpm pool).
Proof.
  intros H. cut (∃ kept, tempo_filter fmap min_bpm pool = Ok kept).
  { intros [kept Hk]. by rewrite Hk, (tempo_filter_Ok _ _ _ _ Hk). }
  induction H as [|t pool [b Hb] _ [rest IH]]; cbn; [eauto|].
  rewrite Hb, IH. cbn. eauto.
Qed.

Lemma passing_all fmap min_bpm pool :
  Forall (λ t, keeps fmap min_bpm t = Ok true) pool →
  passing fmap min_bpm pool = pool.
Proof.
  unfold passing. induction 1 as [|t pool Ht _ IH]; [done|].
  by rewrite filter_cons_True, IH.
Qed.

Lemma passing_none fmap min_bpm pool :
  Forall (λ t, keeps fmap min_bpm t = Ok false) pool →
  passing fmap min_bpm pool = [].
Proof.
  unfold passing. induction 1 as [|t pool Ht _ IH]; [done|].
  by rewrite filter_cons_False by (rewrite Ht; congruence).
Qed.

Lemma tempo_select_lists pool feats min_bpm track_limit fmap kept :
  build_fmap (VList feats) = Ok fmap →
  tempo_filter fmap min_bpm pool = Ok kept →
  tempo_select (VList pool) (VList feats) min_bpm track_limit
  = Ok (VList (Py.slice_to (chosen pool kept) track_limit)).
Proof.
  intros Hf Hk. unfold tempo_select. rewrite Hf. cbn. rewrite Hk. cbn.
  by destruct kept.
Qed.

Lemma generate_tempo_outcome W hd weather min_bpm track_limit pool feats :
  fetches W hd weather track_limit pool feats →
  outcome (generate_tempo W hd weather min_bpm track_limit)
  = tempo_select (VList pool) (VList feats) min_bpm track_limit.
Proof.
  intros (kw & ids & Hkw & Hpool & Hids & Hfeats). unfold generate_tempo.
  step Hkw. step Hpool. step Hids. by step Hfeats.
Qed.

Lemma slice_to_nonneg {A : Type} (l : list A) (n : Z) :
  0 ≤ n → Py.slice_to l n = take (Z.to_nat n) l.
Proof. intros H. unfold Py.slice_to. by rewrite (proj2 (Z.leb_le 0 n)). Qed.

Lemma slice_to_length {A : Type} (l : list A) (n : Z) :
  0 ≤ n → (Z.of_nat (length (Py.slice_to l n)) ≤ n).
Proof. intros H. rewrite slice_to_nonneg, length_take by done. lia. Qed.

Lemma slice_to_nonempty {A : Type} (l : list A) (n : Z) :
  1 ≤ n → l ≠ [] → Py.slice_to l n ≠ [].
Proof.
  intros H Hl. rewrite slice_to_nonneg by lia.
  destruct l as [|x l]; [done|].
  destruct (Z.to_nat n) eqn:E; [lia|done].
Qed.

Lemma passing_has_feature fmap min_bpm pool feats t :
  (∀ s, is_Some (fmap !! KStr s) ↔ ∃ f, f ∈ feats ∧ entry_for s f) →
  Forall (λ t, is_track t = true) pool →
  t ∈ passing fmap min_bpm pool → has_feature feats t.
Proof.
  intros Hdom Hpool [Ht Hin]%list_elem_of_filter.
  rewrite Forall_forall in Hpool.
  destruct (is_track_id t (Hpool t Hin)) as [s Hs].
  destruct (proj1 (Hdom s) (keeps_true_lookup _ _ _ _ Hs Ht)) as (f & ? & ?).
  by exists s, f.
Qed.

End tempo_select.

(** ** Tempo mode: what a run returns *)

Section tempo_runs.

Context (W : World) (hd : headers) (weather : value).
Implicit Types (pool feats : list value) (min_bpm track_limit : Z).

(** C4.  In Tempo mode a non-empty candidate pool never gives an empty
    result: for a track limit of at least 1 (the slider gives 5..30) the
    run returns a non-empty list, and when no candidate passes the tempo
    test that list is the first [track_limit] entries of the pool. *)
Theorem generate_tempo_nonempty pool feats min_bpm track_limit :
  fetches W hd weather track_limit pool feats →
  Forall (λ t, is_track t = true) pool →
  Forall (λ f, is_feature_entry f = true) feats →
  pool ≠ [] →
  1 ≤ track_limit →
  ∃ fmap r,
    build_fmap (VList feats) = Ok fmap ∧
    outcome (generate_tempo W hd weather min_bpm track_limit) = Ok (VList r) ∧
    r ≠ [] ∧
    (Forall (λ t, keeps fmap min_bpm t = Ok false) pool →
     r = take (Z.to_nat track_limit) pool).
Proof.
  intros Hrun Hpool Hfeats Hne Hlim.
  destruct (build_fmap_spec feats Hfeats) as (fmap & Hfmap & Hwf & _).
  assert (tempo_filter fmap min_bpm pool = Ok (passing fmap min_bpm pool))
    as Hkept.
  { apply tempo_filter_total. eapply Forall_impl; [exact Hpool|].
    intros t Ht. by apply keeps_total. }
  exists fmap, (Py.slice_to (chosen pool (passing fmap min_bpm pool)) track_limit).
  split_and!; [done| | |].
  - rewrite (generate_tempo_outcome _ _ _ _ _ _ _ Hrun).
    by apply tempo_select_lists with fmap.
  - apply slice_to_nonempty; [done|].
    unfold chosen. by destruct (passing fmap min_bpm pool).
  - intros Hnone. rewrite (passing_none _ _ _ Hnone). cbn.
    apply slice_to_nonneg. lia.
Qed.

(** C7.  In Tempo mode, when every candidate of the pool passes the tempo
    test, the result is the pool itself cut to its first [track_limit]
    entries: same tracks, same order. *)
Theorem generate_tempo_all_pass pool feats min_bpm track_limit fmap :
  fetches W hd weather track_limit pool feats →
  build_fmap (VList feats) = Ok fmap →
  Forall (λ t, keeps fmap min_bpm t = Ok true) pool →
  0 ≤ track_limit →
  outcome (generate_tempo W hd weather min_bpm track_limit)
  = Ok (VList (take (Z.to_nat track_limit) pool)).
Proof.
  intros Hrun Hfmap Hall Hlim.
  assert (tempo_filter fmap min_bpm pool = Ok pool) as Hkept.
  { rewrite tempo_filter_total.
    - by rewrite passing_all.
    - eapply Forall_impl; [exact Hall|]. intros t Ht. by exists true. }
  rewrite (generate_tempo_outcome _ _ _ _ _ _ _ Hrun).
  rewrite (tempo_select_lists _ _ _ _ fmap pool Hfmap Hkept).
  rewrite slice_to_nonneg by done. by destruct pool.
Qed.

(** C10.  A candidate whose feature record has no ["tempo"] field is
    compared as tempo 0: for every minimum BPM of the slider (60..180) the
    test rejects it, so it is not among the filtered tracks; the run
    returns the filtered tracks cut to [track_limit], or, when the
    filtered list is empty, the head of the whole pool, where such a
    candidate can still appear. *)
Theorem missing_tempo_is_zero pool feats min_bpm track_limit fmap kept t s kv :
  fetches W hd weather track_limit pool feats →
  build_fmap (VList feats) = Ok fmap →
  tempo_filter fmap min_bpm pool = Ok kept →
  Py.getitem t "id" = Ok (VStr s) →
  fmap !! KStr s = Some (VDict kv) →
  Py.dict_get "tempo" kv = None →
  (60 ≤ min_bpm ≤ 180) →
  Py.get (VDict kv) "tempo" (VNum 0) = Ok (VNum 0) ∧
  keeps fmap min_bpm t = Ok false ∧
  (t ∉ kept) ∧
  outcome (generate_tempo W hd weather min_bpm track_limit)
  = Ok (VList (Py.slice_to (chosen pool kept) track_limit)).
Proof.
  intros Hrun Hfmap Hkept Hs Hk Ht Hmin.
  assert (keeps fmap min_bpm t = Ok false) as Hno.
  { apply keeps_no_tempo with s kv; [done..|lia]. }
  split_and!; [|done| |].
  - cbn. by rewrite Ht.
  - rewrite (tempo_filter_Ok _ _ _ _ Hkept).
    intros [Hyes _]%list_elem_of_filter. congruence.
  - rewrite (generate_tempo_outcome _ _ _ _ _ _ _ Hrun).
    by apply tempo_select_lists with fmap.
Qed.

(** C1 (as the code has it).  Null entries of the audio-features answer
    never make the filter raise: they are left out of the lookup.  Every
    track that passes the tempo test has a non-null feature entry, and
    whenever at least one track passes, the result holds only such
    tracks. *)
Theorem generate_tempo_skips_missing pool feats min_bpm track_limit :
  fetches W hd weather track_limit pool feats →
  Forall (λ t, is_track t = true) pool →
  Forall (λ f, is_feature_entry f = true) feats →
  ∃ fmap kept r,
    build_fmap (VList feats) = Ok fmap ∧
    tempo_filter fmap min_bpm pool = Ok kept ∧
    outcome (generate_tempo W hd weather min_bpm track_limit) = Ok (VList r) ∧
    (∀ t, t ∈ kept → has_feature feats t) ∧
    (kept ≠ [] → ∀ t, t ∈ r → has_feature feats t).
Proof.
  intros Hrun Hpool Hfeats.
  destruct (build_fmap_spec feats Hfeats) as (fmap & Hfmap & Hwf & Hdom).
  assert (tempo_filter fmap min_bpm pool = Ok (passing fmap min_bpm pool))
    as Hkept.
  { apply tempo_filter_total. eapply Forall_impl; [exact Hpool|].
    intros t Ht. by apply keeps_total. }
  exists fmap, (passing fmap min_bpm pool),
    (Py.slice_to (chosen pool (passing fmap min_bpm pool)) track_limit).
  split_and!; [done|done| | |].
  - rewrite (generate_tempo_outcome _ _ _ _ _ _ _ Hrun).
    by apply tempo_select_lists with fmap.
  - intros t. by apply passing_has_feature.
  - intros Hne t Hin. apply (passing_has_feature fmap min_bpm pool); [done..|].
    assert (chosen pool (passing fmap min_bpm pool) = passing fmap min_bpm pool)
      as Hc by (unfold chosen; by destruct (passing fmap min_bpm pool)).
    rewrite Hc in Hin. unfold Py.slice_to in Hin.
    destruct (0 <=? track_limit); by apply elem_of_take in Hin as (? & ?%list_elem_of_lookup_2 & ?).
Qed.

End tempo_runs.

Lemma generate_tempo_nonempty_witness :
  ∃ fmap r,
    build_fmap (VList [VNone; feature "b" 128]) = Ok fmap ∧
    outcome (generate_tempo world_one_null app_headers seoul 130 5)
    = Ok (VList r) ∧
    r ≠ [] ∧
    (Forall (λ t, keeps fmap 130 t = Ok false) [track "a"; track "b"] →
     r = take (Z.to_nat 5) [track "a"; track "b"]).
Proof.
  apply (generate_tempo_nonempty world_one_null app_headers seoul
           [track "a"; track "b"] [VNone; feature "b" 128] 130 5).
  - exists "happy pop bright", [VStr "a"; VStr "b"]. by vm_compute.
  - by repeat constructor.
  - by repeat constructor.
  - done.
  - lia.
Defined.

Lemma generate_tempo_all_pass_witness :
  outcome (generate_tempo world_all_fast app_headers seoul 110 2)
  = Ok (VList [track "a"; track "b"]).
Proof.
  apply (generate_tempo_all_pass world_all_fast app_headers seoul
           [track "a"; track "b"; track "c"]
           [feature "a" 120; feature "b" (2571 # 20); feature "c" 140] 110 2
           (<[KStr "c" := feature "c" 140]>
              (<[KStr "b" := feature "b" (2571 # 20)]>
                 (<[KStr "a" := feature "a" 120]> ∅)))).
  - exists "happy pop bright", [VStr "a"; VStr "b"; VStr "c"]. by vm_compute.
  - reflexivity.
  - repeat constructor; by vm_compute.
  - lia.
Defined.

Lemma missing_tempo_is_zero_witness :
  Py.get (feature_without_tempo "b") "tempo" (VNum 0) = Ok (VNum 0) ∧
  keeps (<[KStr "b" := feature_without_tempo "b"]>
           (<[KStr "a" := feature "a" 128]> ∅)) 110 (track "b") = Ok false ∧
  (track "b" ∉ [track "a"]) ∧
  outcome (generate_tempo world_no_tempo app_headers seoul 110 5)
  = Ok (VList (Py.slice_to (chosen [track "a"; track "b"] [track "a"]) 5)).
Proof.
  apply (missing_tempo_is_zero world_no_tempo app_headers seoul
           [track "a"; track "b"]
           [feature "a" 128; feature_without_tempo "b"] 110 5
           (<[KStr "b" := feature_without_tempo "b"]>
              (<[KStr "a" := feature "a" 128]> ∅))
           [track "a"] (track "b") "b"
           [("id", VStr "b"); ("energy", VNum (1 # 2))]).
  - exists "happy pop bright", [VStr "a"; VStr "b"]. by vm_compute.
  - reflexivity.
  - by vm_compute.
  - reflexivity.
  - by vm_compute.
  - reflexivity.
  - lia.
Defined.

Lemma generate_tempo_skips_missing_witness :
  ∃ fmap kept r,
    build_fmap (VList [VNone; feature "b" 128]) = Ok fmap ∧
    tempo_filter fmap 110 [track "a"; track "b"] = Ok kept ∧
    outcome (generate_tempo world_one_null app_headers seoul 110 5)
    = Ok (VList r) ∧
    (∀ t, t ∈ kept → has_feature [VNone; feature "b" 128] t) ∧
    (kept ≠ [] → ∀ t, t ∈ r → has_feature [VNone; feature "b" 128] t).
Proof.
  apply (generate_tempo_skips_missing world_one_null app_headers seoul
           [track "a"; track "b"] [VNone; feature "b" 128] 110 5).
  - exists "happy pop bright", [VStr "a"; VStr "b"]. by vm_compute.
  - by repeat constructor.
  - by repeat constructor.
Defined.

(** C1 as stated does not hold: with one candidate and a null feature entry
    for it, nothing passes the tempo test and the fallback returns that very
    candidate. *)
Lemma null_feature_track_returned :
  outcome (generate_tempo world_only_null app_headers seoul 110 5)
  = Ok (VList [track "a"]) ∧
  track "a" ∈ [track "a"] ∧
  ¬ has_feature [VNone] (track "a").
Proof.
  split_and!.
  - by vm_compute.
  - apply list_elem_of_singleton. reflexivity.
  - intros (s & f & _ & Hin & kv & -> & _).
    by apply list_elem_of_singleton in Hin.
Qed.

(** ** The size of the list shown to the user *)

Lemma outcome_bind_inv {A B : Type} (m : M A) (f : A → M B) (b : B) :
  outcome (m ≫= f) = Ok b → ∃ a, outcome m = Ok a ∧ outcome (f a) = Ok b.
Proof.
  unfold mbind, M_bind. destruct (outcome m) as [a|e]; [|done]. eauto.
Qed.

Lemma tempo_select_bound (base feats : value) (min_bpm track_limit : Z)
    (tracks : list value) :
  0 ≤ track_limit →
  tempo_select base feats min_bpm track_limit = Ok (VList tracks) →
  Z.of_nat (length tracks) ≤ track_limit.
Proof.
  intros Hlim. unfold tempo_select.
  destruct (build_fmap feats) as [fmap|]; [cbn|done].
  destruct (Py.iter base) as [ts|]; [cbn|done].
  destruct (tempo_filter fmap min_bpm ts) as [kept|]; [cbn|done].
  destruct (negb _).
  - destruct base; try done. cbn. intros [= <-]. by apply slice_to_length.
  - intros [= <-]. by apply slice_to_length.
Qed.

Lemma generate_tempo_bound (W : World) (hd : headers) (weather : value)
    (min_bpm track_limit : Z) (tracks : list value) :
  0 ≤ track_limit →
  outcome (generate_tempo W hd weather min_bpm track_limit) = Ok (VList tracks) →
  Z.of_nat (length tracks) ≤ track_limit.
Proof.
  intros Hlim H. unfold generate_tempo in H.
  apply outcome_bind_inv in H as (kw & _ & H).
  apply outcome_bind_inv in H as (base & _ & H).
  apply outcome_bind_inv in H as (ids & _ & H).
  apply outcome_bind_inv in H as (feats & _ & H).
  by apply tempo_select_bound in H.
Qed.




(** ** The mood mapper *)

Lemma mapping_lookup (d : string) :
  mapping !! d =
    if decide (d = "clear") then Some "happy pop bright"
    else if decide (d = "clouds") then Some "indie chill"
    else if decide (d = "rain") then Some "lofi rainy chill"
    else if decide (d = "snow") then Some "cozy acoustic"
    else if decide (d = "thunderstorm") then Some "dark edm"
    else None.
Proof.
  unfold mapping.
  repeat (case_decide; [subst; reflexivity|rewrite lookup_insert_ne by done]).
  case_decide; [subst; reflexivity|by rewrite lookup_singleton_ne].
Qed.

(** On any document that carries a condition, the mapper looks up the
    lower-cased condition. *)
Lemma weather_to_keyword_document (weather ws w0 : value) (c : string) :
  Py.getitem weather "weather" = Ok ws →
  Py.getindex ws 0 = Ok w0 →
  Py.getitem w0 "main" = Ok (VStr c) →
  weather_to_keyword weather
  = Ok (default "chill mood" (mapping !! Py.lower_string c)).
Proof.
  intros H1 H2 H3. unfold weather_to_keyword.
  rewrite H1, result_bind_Ok, H2, result_bind_Ok, H3. reflexivity.
Qed.

Lemma weather_to_keyword_reading (r : WeatherReading) :
  weather_to_keyword (reading_json r)
  = Ok (default "chill mood" (mapping !! Py.lower_string (condition r))).
Proof. reflexivity. Qed.

(** C3.  On every weather reading the mood mapper returns a keyword, one of
    the six it knows; it is a function of the reading alone, outside the
    monad of calls, so it issues none. *)
Theorem weather_to_keyword_total (r : WeatherReading) :
  ∃ kw, weather_to_keyword (reading_json r) = Ok kw ∧
        kw ∈ ["happy pop bright"; "indie chill"; "lofi rainy chill";
              "cozy acoustic"; "dark edm"; "chill mood"].
Proof.
  rewrite weather_to_keyword_reading, mapping_lookup.
  eexists. split; [reflexivity|].
  repeat case_decide; cbn; set_solver.
Qed.

(** Outside the readings the mapper is partial: a document without a
    condition makes it raise. *)
Example weather_to_keyword_no_condition :
  weather_to_keyword (VDict [("cod", VNum 200); ("weather", VList [])])
  = Raise IndexError.
Proof. reflexivity. Qed.

(** C6.  The mood mapper lower-cases the condition and looks it up: each of
    the five known conditions has its keyword ("clear" gives "happy pop
    bright"), every other condition gives "chill mood"; and Basic mode
    issues one catalog search whose query is that keyword, as it is. *)
Theorem mood_keyword_table (r : WeatherReading) (W : World) (hd : headers)
    (track_limit : Z) :
  let c := Py.lower_string (condition r) in
  let kw :=
    if decide (c = "clear") then "happy pop bright"
    else if decide (c = "clouds") then "indie chill"
    else if decide (c = "rain") then "lofi rainy chill"
    else if decide (c = "snow") then "cozy acoustic"
    else if decide (c = "thunderstorm") then "dark edm"
    else "chill mood" in
  weather_to_keyword (reading_json r) = Ok kw ∧
  calls (generate_basic W hd (reading_json r) track_limit)
  = [HttpGet search_url hd
       [("q", VStr kw); ("type", VStr "track");
        ("limit", VNum (inject_Z track_limit))]].
Proof.
  intros c kw.
  assert (weather_to_keyword (reading_json r) = Ok kw) as Hkw.
  { rewrite weather_to_keyword_reading, mapping_lookup. fold c. subst kw.
    by repeat case_decide. }
  split; [done|]. unfold generate_basic.
  rewrite (outcome_lift_bind _ _ _ Hkw).
  unfold search_tracks, try_except, http_get, search_params. cbn.
  destruct (requests_get W _ _ _) as [|[j|]]; cbn; [done| |done].
  destruct (Py.getitem j "tracks") as [t|]; cbn; [|done].
  by destruct (Py.getitem t "items").
Qed.

(** ** The run block: a failed weather lookup *)

Lemma get_weather_run (W : World) (city : string) :
  get_weather W city
  = Run [HttpGet weather_url NoAuth (weather_params W city)]
        (Ok (weather_document
               (requests_get W weather_url NoAuth (weather_params W city)))).
Proof.
  unfold get_weather, try_except, http_get. rewrite emit_bind.
  by destruct (requests_get W _ _ _) as [|[v|]].
Qed.

Lemma weather_failed_spec (r : response) :
  weather_unavailable r = true →
  weather_failed (weather_document r) = Ok true.
Proof.
  destruct r as [|[v|]]; [done| |done].
  destruct v as [ | b | q | s | l | kv ]; unfold weather_failed; cbn;
    try done; try (by intros ->).
  unfold status_ok. destruct kv as [|p kv]; [done|]. cbn. by intros ->.
Qed.

(** C8.  When the weather lookup brings nothing usable (the request fails,
    the answer is empty, or its status is 404 or anything but 200) the run
    makes the one weather request, reports "날씨 정보를 찾을 수 없습니다."
    and stops: no catalog search is issued. *)
Theorem run_halts_without_weather (W : World) (hd : headers) (inp : inputs) :
  weather_unavailable
    (requests_get W weather_url NoAuth (weather_params W (city inp))) = true →
  run W hd inp
  = Run [HttpGet weather_url NoAuth (weather_params W (city inp));
         StError [Lit "날씨 정보를 찾을 수 없습니다."]]
        (Raise StopException) ∧
  ∀ hd' params, HttpGet search_url hd' params ∉ calls (run W hd inp).
Proof.
  intros H.
  assert (run W hd inp
          = Run [HttpGet weather_url NoAuth (weather_params W (city inp));
                 StError [Lit "날씨 정보를 찾을 수 없습니다."]]
                (Raise StopException)) as Hrun.
  { apply weather_failed_spec in H. unfold run.
    rewrite get_weather_run, bind_Run_Ok. cbv beta.
    rewrite (outcome_lift_bind _ _ _ H). reflexivity. }
  split; [done|]. rewrite Hrun. intros hd' params Hin.
  apply elem_of_cons in Hin as [Heq|Hin].
  { discriminate Heq. }
  apply list_elem_of_singleton in Hin. discriminate Hin.
Qed.

Lemma run_halts_without_weather_witness :
  run world_404 app_headers basic_5
  = Run [HttpGet weather_url NoAuth (weather_params world_404 (city basic_5));
         StError [Lit "날씨 정보를 찾을 수 없습니다."]]
        (Raise StopException) ∧
  ∀ hd' params,
    HttpGet search_url hd' params ∉ calls (run world_404 app_headers basic_5).
Proof.
  apply (run_halts_without_weather world_404 app_headers basic_5).
  reflexivity.
Defined.

(** ** The playlist publisher *)

Lemma digit_is_digit (k : nat) : (k < 10)%nat → is_digit (digit k) = true.
Proof.
  intros H. do 10 (destruct k as [|k]; [reflexivity|]). lia.
Qed.

Lemma two_digits_shape (n : nat) :
  (n < 100)%nat →
  ∃ c1 c2, two_digits n = String c1 (String c2 "") ∧
           is_digit c1 = true ∧ is_digit c2 = true.
Proof.
  intros H. exists (digit (n / 10)), (digit (n mod 10)). split_and!; [done| |].
  - apply digit_is_digit, Nat.Div0.div_lt_upper_bound. lia.
  - apply digit_is_digit, Nat.mod_upper_bound. lia.
Qed.

Lemma strftime_matches (d : datetime) :
  valid_datetime d = true → matches_stamp (strftime d) = true.
Proof.
  unfold valid_datetime. rewrite !andb_true_iff.
  rewrite !Nat.leb_le, !Nat.ltb_lt. intros [[[[[? ?] ?] ?] ?] ?].
  unfold strftime.
  destruct (two_digits_shape (month d)) as (m1 & m2 & -> & Hm1 & Hm2); [lia|].
  destruct (two_digits_shape (day d)) as (d1 & d2 & -> & Hd1 & Hd2); [lia|].
  destruct (two_digits_shape (hour d)) as (h1 & h2 & -> & Hh1 & Hh2); [lia|].
  destruct (two_digits_shape (minute d)) as (n1 & n2 & -> & Hn1 & Hn2); [lia|].
  unfold matches_stamp. cbv -[is_digit].
  by rewrite Hm1, Hm2, Hd1, Hd2, Hh1, Hh2, Hn1, Hn2.
Qed.

(** C9.  When the three client calls succeed, the publisher issues exactly:
    the profile lookup; one playlist creation, named
    "Weather Mix - {city} (MM/DD HH:MM)" after the clock, with [public]
    false; one add-items call carrying the given URIs, all of them and in
    the given order.  It returns the playlist's [external_urls.spotify]
    link. *)
Theorem create_playlist_auto_spec (W : World) (city : string)
    (ids : list value) (profile user_id playlist pid ack urls link : value) :
  valid_datetime (datetime_now W) = true →
  me (get_spotify_client W) = Ok profile →
  Py.getitem profile "id" = Ok user_id →
  user_playlist_create (get_spotify_client W) user_id (playlist_name W city)
    false playlist_description = Ok playlist →
  Py.getitem playlist "id" = Ok pid →
  playlist_add_items (get_spotify_client W) pid ids = Ok ack →
  Py.getitem playlist "external_urls" = Ok urls →
  Py.getitem urls "spotify" = Ok link →
  create_playlist_auto W city ids
  = Run [SpMe;
         SpUserPlaylistCreate user_id (playlist_name W city) false
           playlist_description;
         SpPlaylistAddItems pid ids]
        (Ok link) ∧
  ∃ stamp,
    playlist_name W city
    = "Weather Mix - " +:+ city +:+ " (" +:+ stamp +:+ ")" ∧
    matches_stamp stamp = true.
Proof.
  intros Hnow Hme Hid Hcreate Hpid Hadd Hurls Hlink. split.
  - unfold create_playlist_auto.
    rewrite emit_bind. step Hme. step Hid. cbv zeta.
    rewrite emit_bind. step Hcreate. step Hpid.
    rewrite emit_bind. step Hadd. step Hurls.
    unfold lift. by rewrite Hlink.
  - exists (strftime (datetime_now W)). split; [done|].
    by apply strftime_matches.
Qed.

Lemma create_playlist_auto_spec_witness :
  create_playlist_auto world_six "Seoul" ten_uris
  = Run [SpMe;
         SpUserPlaylistCreate (VStr "user1") (playlist_name world_six "Seoul")
           false playlist_description;
         SpPlaylistAddItems (VStr "pl1") ten_uris]
        (Ok (VStr "https://open.spotify.com/playlist/pl1")) ∧
  ∃ stamp,
    playlist_name world_six "Seoul"
    = "Weather Mix - " +:+ "Seoul" +:+ " (" +:+ stamp +:+ ")" ∧
    matches_stamp stamp = true.
Proof.
  apply (create_playlist_auto_spec world_six "Seoul" ten_uris
           (VDict [("id", VStr "user1")]) (VStr "user1")
           (VDict [("id", VStr "pl1");
                   ("external_urls",
                    VDict [("spotify",
                            VStr "https://open.spotify.com/playlist/pl1")])])
           (VStr "pl1") (VDict [("snapshot_id", VStr "s1")])
           (VDict [("spotify", VStr "https://open.spotify.com/playlist/pl1")])
           (VStr "https://open.spotify.com/playlist/pl1"));
    reflexivity.
Defined.

Example playlist_name_seoul :
  playlist_name world_six "Seoul" = "Weather Mix - Seoul (11/04 09:05)".
Proof. reflexivity. Qed.

(** ** The application token *)

(** The three fetches wrapped in [try ... except] never raise, whatever the
    world does. *)
Lemma get_weather_never_raises (W : World) (city : string) :
  ∃ v, outcome (get_weather W city) = Ok v.
Proof. apply try_except_outcome_Ok. Qed.

Lemma search_tracks_never_raises (W : World) (hd : headers) (query : string)
    (limit : Z) :
  ∃ v, outcome (search_tracks W hd query limit) = Ok v.
Proof. apply try_except_outcome_Ok. Qed.

Lemma get_audio_features_never_raises (W : World) (hd : headers)
    (ids : list value) :
  ∃ v, outcome (get_audio_features W hd ids) = Ok v.
Proof. apply try_except_outcome_Ok. Qed.

(** The token fetch lets a failed request through. *)
Lemma get_app_token_propagates (W : World) :
  requests_post W "https://accounts.spotify.com/api/token"
    [("grant_type", VStr "client_credentials")]
    (SPOTIFY_CLIENT_ID W, SPOTIFY_CLIENT_SECRET W) = ConnectionFails →
  get_app_token W
  = Run [HttpPost "https://accounts.spotify.com/api/token"
           [("grant_type", VStr "client_credentials")]
           (SPOTIFY_CLIENT_ID W, SPOTIFY_CLIENT_SECRET W)]
        (Raise RequestException).
Proof.
  intros H. unfold get_app_token, http_post. rewrite emit_bind, H. reflexivity.
Qed.

(** An answer without [access_token] (the endpoint's error document) gives
    the [None] sentinel, and the headers are then left empty. *)
Lemma get_app_token_missing_token (kv : list (string * value)) :
  Py.dict_get "access_token" kv = None →
  outcome (get_app_token (token_answers (Some (VDict kv)))) = Ok VNone ∧
  outcome (startup (token_answers (Some (VDict kv)))) = Ok NoAuth.
Proof.
  intros H. unfold startup, get_app_token, http_post. rewrite emit_bind. cbn.
  by rewrite H.
Qed.

(** C2.  The token fetch has no handler of its own: when the token request
    raises, when its body is not JSON, or when the body is JSON but not an
    object, the exception leaves [get_app_token] (and the start-up of the
    script with it).  The three other fetches, given the same dead network,
    return their sentinel. *)
Theorem get_app_token_raises :
  outcome (get_app_token offline) = Raise RequestException ∧
  outcome (get_app_token (token_answers None)) = Raise JSONDecodeError ∧
  outcome (get_app_token (token_answers (Some (VList [])))) = Raise AttributeError ∧
  outcome (startup offline) = Raise RequestException ∧
  outcome (get_weather offline "Seoul") = Ok VNone ∧
  outcome (search_tracks offline NoAuth "happy pop bright" 5) = Ok (VList []) ∧
  outcome (get_audio_features offline NoAuth [VStr "a"]) = Ok (VList []).
Proof. by split_and!. Qed.

(** ** A whole run

    Tempo mode at 110 BPM, publishing: of the two candidates only the second
    has features, it passes, is shown in the first column and goes into the
    playlist. *)
Example run_tempo_publish :
  startup world_one_null
  = Run [HttpPost "https://accounts.spotify.com/api/token"
           [("grant_type", VStr "client_credentials")]
           (VStr "id", VStr "secret")]
        (Ok app_headers) ∧
  run world_one_null app_headers tempo_publish
  = Run [HttpGet weather_url NoAuth
           [("q", VStr "Seoul"); ("appid", VStr "owm-key");
            ("units", VStr "metric"); ("lang", VStr "kr")];
         StSuccess [Fmt (VStr "Seoul"); Lit " 현재 날씨: "; Fmt (VStr "맑음");
                    Lit " / "; Fmt (VNum (43 # 2)); Lit "°C"];
         HttpGet search_url app_headers
           [("q", VStr "happy pop bright upbeat dance");
            ("type", VStr "track"); ("limit", VNum 15)];
         HttpGet "https://api.spotify.com/v1/audio-features" app_headers
           [("ids", VStr "a,b")];
         StSubheader "🎶 추천 트랙";
         StColumns 3;
         StImage 0 (VStr "https://i.scdn.co/image/x");
         StMarkdown (Some 0%nat) [Lit "**"; Fmt (VStr "song b"); Lit "**"];
         StCaption 0 "artist";
         StLinkButton (Some 0%nat) "🎧 Spotify에서 듣기"
           (VStr "https://open.spotify.com/track/b");
         StMarkdown None [Lit "## 📀 Spotify 플레이리스트 생성 중..."];
         SpMe;
         SpUserPlaylistCreate (VStr "user1")
           "Weather Mix - Seoul (11/04 09:05)" false playlist_description;
         SpPlaylistAddItems (VStr "pl1") [VStr "spotify:track:b"];
         StSuccess [Lit "✅ 플레이리스트 생성 완료!"];
         StLinkButton None "🎶 Spotify에서 열기"
           (VStr "https://open.spotify.com/playlist/pl1")]
        (Ok ()).
Proof. split; by vm_compute. Qed.

(** ** The three fail-soft fetches *)

(** X1.  The weather lookup makes exactly one request, with the city, the
    key, metric units and the Korean locale, and never raises: it returns
    the parsed body, or [None] when the request fails or the body is not
    JSON. *)
Theorem get_weather_one_request (W : World) (city : string) :
  get_weather W city
  = Run [HttpGet "https://api.openweathermap.org/data/2.5/weather" NoAuth
           [("q", VStr city); ("appid", OPENWEATHER_API_KEY W);
            ("units", VStr "metric"); ("lang", VStr "kr")]]
        (Ok match requests_get W weather_url NoAuth (weather_params W city) with
            | Replies (Some v) => v
            | _ => VNone
            end).
Proof. apply get_weather_run. Qed.

Lemma search_tracks_run (W : World) (hd : headers) (query : string)
    (limit : Z) :
  search_tracks W hd query limit
  = Run [HttpGet search_url hd (search_params query limit)]
        (Ok (search_items
               (requests_get W search_url hd (search_params query limit)))).
Proof.
  unfold search_tracks, try_except, http_get. rewrite emit_bind.
  destruct (requests_get W _ _ _) as [|[j|]]; [done| |done].
  destruct j as [ | b | q | s | l | kv ]; try done. cbn.
  destruct (Py.dict_get "tracks" kv) as [t|]; [|done]. cbn.
  destruct t as [ | b | q | s | l | kv' ]; try done. cbn.
  by destruct (Py.dict_get "items" kv').
Qed.

(** X2.  The catalog search makes exactly one request, carrying the query,
    the type [track] and the limit, and never raises: it returns what the
    answer holds under [tracks.items], and the empty list in every other
    case (failed request, body not JSON, a member missing). *)
Theorem search_tracks_one_request (W : World) (hd : headers) (query : string)
    (limit : Z) :
  search_tracks W hd query limit
  = Run [HttpGet "https://api.spotify.com/v1/search" hd
           [("q", VStr query); ("type", VStr "track");
            ("limit", VNum (inject_Z limit))]]
        (Ok (search_items
               (requests_get W search_url hd (search_params query limit)))).
Proof. apply search_tracks_run. Qed.

Lemma join_strings (sep : string) (ss : list string) :
  Py.join sep (VStr <$> ss) = Ok (String.concat sep ss).
Proof.
  induction ss as [|s ss IH]; [done|].
  destruct ss as [|s' ss]; [done|].
  change (Py.join sep (VStr <$> s :: s' :: ss))
    with (Py.join sep (VStr <$> s' :: ss) ≫= λ rest, Ok (s +:+ sep +:+ rest)).
  by rewrite IH.
Qed.

Lemma join_not_string (sep : string) (ids : list value) (v : value) :
  v ∈ ids → is_VStr v = false → ∃ e, Py.join sep ids = Raise e.
Proof.
  induction ids as [|x ids IH]; [by intros ?%elem_of_nil|].
  intros [->|Hin]%elem_of_cons Hv.
  - destruct x; try done; destruct ids; by eexists.
  - destruct (IH Hin Hv) as [e He].
    destruct ids as [|y ids]; [by apply elem_of_nil in Hin|].
    destruct x as [ | b | q | s | l | kv ]; try by eexists.
    exists e.
    change (Py.join sep (VStr s :: y :: ids))
      with (Py.join sep (y :: ids) ≫= λ rest, Ok (s +:+ sep +:+ rest)).
    by rewrite He.
Qed.

Lemma get_audio_features_run (W : World) (hd : headers) (ids : list string) :
  get_audio_features W hd (VStr <$> ids)
  = Run [HttpGet features_url hd [("ids", VStr (String.concat "," ids))]]
        (Ok (features_of
               (requests_get W features_url hd
                  [("ids", VStr (String.concat "," ids))]))).
Proof.
  unfold get_audio_features. rewrite join_strings.
  unfold try_except, http_get.
  rewrite outcome_lift_bind with (a := String.concat "," ids) by done.
  rewrite emit_bind.
  destruct (requests_get W _ _ _) as [|[j|]]; [done| |done].
  destruct j as [ | b | q | s | l | kv ]; try done. cbn.
  by destruct (Py.dict_get "audio_features" kv).
Qed.

(** X3.  For track ids that are all strings, the feature fetch makes exactly
    one request whose [ids] parameter is the ids joined by commas (the empty
    string for no ids), and never raises: it returns what the answer holds
    under [audio_features], and the empty list in every other case. *)
Theorem get_audio_features_one_request (W : World) (hd : headers)
    (ids : list string) :
  get_audio_features W hd (VStr <$> ids)
  = Run [HttpGet "https://api.spotify.com/v1/audio-features" hd
           [("ids", VStr (String.concat "," ids))]]
        (Ok (features_of
               (requests_get W features_url hd
                  [("ids", VStr (String.concat "," ids))]))).
Proof. apply get_audio_features_run. Qed.

(** X4.  When some track id is not a string, the feature fetch makes no
    request at all and returns the empty list: joining the ids fails inside
    the [try]. *)
Theorem get_audio_features_bad_id (W : World) (hd : headers)
    (ids : list value) (v : value) :
  v ∈ ids → is_VStr v = false →
  get_audio_features W hd ids = Run [] (Ok (VList [])).
Proof.
  intros Hin Hv. destruct (join_not_string "," ids v Hin Hv) as [e He].
  unfold get_audio_features. by rewrite He.
Qed.

Lemma get_audio_features_bad_id_witness :
  get_audio_features world_six app_headers [VStr "a"; VNone; VStr "c"]
  = Run [] (Ok (VList [])).
Proof.
  apply (get_audio_features_bad_id world_six app_headers
           [VStr "a"; VNone; VStr "c"] VNone).
  - apply elem_of_cons. right. apply elem_of_cons. by left.
  - reflexivity.
Defined.
(** ** The mood mapper, again *)

Lemma lower_upper_ascii (c : ascii) :
  Py.lower_ascii (upper_ascii c) = Py.lower_ascii c.
Proof. by destruct c as [[] [] [] [] [] [] [] []]. Qed.

Lemma lower_lower_ascii (c : ascii) :
  Py.lower_ascii (Py.lower_ascii c) = Py.lower_ascii c.
Proof. by destruct c as [[] [] [] [] [] [] [] []]. Qed.

Lemma lower_upper_string (s : string) :
  Py.lower_string (upper_string s) = Py.lower_string s.
Proof. induction s as [|c s IH]; [done|]. cbn. by rewrite lower_upper_ascii, IH. Qed.

Lemma lower_lower_string (s : string) :
  Py.lower_string (Py.lower_string s) = Py.lower_string s.
Proof. induction s as [|c s IH]; [done|]. cbn. by rewrite lower_lower_ascii, IH. Qed.


(** X6.  Custom mode makes exactly one catalog search: its query is the mood
    keyword, one space, and the user's keywords as typed (so an empty input
    leaves the keyword with a trailing space), its limit the track limit;
    the items of the answer are returned as they are. *)
Theorem generate_custom_query (r : WeatherReading) (W : World) (hd : headers)
    (user_kw : string) (track_limit : Z) :
  ∃ kw,
    weather_to_keyword (reading_json r) = Ok kw ∧
    generate_custom W hd (reading_json r) user_kw track_limit
    = Run [HttpGet search_url hd
             [("q", VStr (kw +:+ " " +:+ user_kw)); ("type", VStr "track");
              ("limit", VNum (inject_Z track_limit))]]
          (Ok (search_items
                 (requests_get W search_url hd
                    (search_params (kw +:+ " " +:+ user_kw) track_limit)))).
Proof.
  eexists. split; [apply weather_to_keyword_reading|].
  unfold generate_custom.
  rewrite (outcome_lift_bind _ _ _ (weather_to_keyword_reading r)).
  apply search_tracks_run.
Qed.
(** ** Tempo mode, again *)

Section tempo_more.

Implicit Types (fmap : gmap key value) (t f : value) (s : string).
Implicit Types (pool feats kept : list value) (min_bpm track_limit : Z).

Lemma fmap_insert_all_app (fs1 fs2 : list value) fmap :
  fmap_insert_all (fs1 ++ fs2) fmap
  = fmap_insert_all fs1 fmap ≫= fmap_insert_all fs2.
Proof.
  revert fmap. induction fs1 as [|f fs1 IH]; intros fmap; [done|].
  cbn [app fmap_insert_all]. destruct (Py.truthy f); [|apply IH].
  destruct (Py.getitem f "id") as [i|]; [|done]. rewrite !result_bind_Ok.
  destruct (Py.to_key i) as [k|]; [|done]. rewrite !result_bind_Ok. apply IH.
Qed.

Lemma fmap_insert_all_other (fs : list value) fmap fmap' s :
  fmap_insert_all fs fmap = Ok fmap' →
  (∀ f, f ∈ fs → ¬ entry_for s f) →
  fmap' !! KStr s = fmap !! KStr s.
Proof.
  revert fmap. induction fs as [|f fs IH]; intros fmap Hrun Hno.
  { by injection Hrun as <-. }
  assert (∀ f', f' ∈ fs → ¬ entry_for s f') as Hno'.
  { intros f' Hin. apply Hno, elem_of_cons. by right. }
  cbn [fmap_insert_all] in Hrun. destruct (Py.truthy f); [|by apply IH].
  destruct (Py.getitem f "id") as [i|] eqn:Hi; [|done].
  rewrite result_bind_Ok in Hrun.
  destruct (Py.to_key i) as [k|] eqn:Hk; [|done].
  rewrite result_bind_Ok in Hrun.
  rewrite (IH _ Hrun Hno'). apply lookup_insert_ne. intros ->.
  apply (Hno f); [apply elem_of_cons; by left|].
  destruct i as [ | b | q | s' | l | kv' ]; try done.
  injection Hk as ->.
  destruct f as [ | b | q | s' | l | kv ]; try done.
  exists kv. split; [done|]. cbn in Hi.
  by destruct (Py.dict_get "id" kv) as [x|]; [injection Hi as ->|].
Qed.

Lemma tempo_filter_raises fmap min_bpm pool t e :
  t ∈ pool → keeps fmap min_bpm t = Raise e →
  ∃ e', tempo_filter fmap min_bpm pool = Raise e'.
Proof.
  induction pool as [|x pool IH]; [by intros ?%elem_of_nil|].
  intros [->|Hin]%elem_of_cons He; cbn [tempo_filter].
  - rewrite He. by eexists.
  - destruct (keeps fmap min_bpm x) as [b|]; [|by eexists].
    rewrite result_bind_Ok. destruct (IH Hin He) as [e' ->]. by eexists.
Qed.

Lemma keeps_tempo fmap min_bpm t s kv q :
  Py.getitem t "id" = Ok (VStr s) →
  fmap !! KStr s = Some (VDict kv) →
  Py.dict_get "tempo" kv = Some (VNum q) →
  keeps fmap min_bpm t = Ok (Qle_bool (inject_Z min_bpm) q).
Proof.
  intros Hs Hk Ht. unfold keeps. rewrite Hs, result_bind_Ok.
  cbn [Py.to_key]. rewrite result_bind_Ok, Hk. cbn [default from_option id].
  rewrite (dict_get_truthy _ _ _ Ht). unfold Py.get. by rewrite Ht.
Qed.

Lemma keeps_threshold_free fmap m1 m2 t :
  match keeps fmap m1 t, keeps fmap m2 t with
  | Ok b1, Ok b2 => m2 ≤ m1 → b1 = true → b2 = true
  | Raise _, Raise _ => True
  | _, _ => False
  end.
Proof.
  unfold keeps. destruct (Py.getitem t "id") as [i|]; [|done]. cbn.
  destruct (Py.to_key i) as [k|]; [|done]. cbn.
  destruct (Py.truthy _); [|done].
  destruct (Py.get _ _ _) as [tempo|]; [|done]. cbn.
  destruct tempo as [ | b | q | s | l | kv ]; try done; cbn.
  - intros H. rewrite !Z.leb_le. lia.
  - intros H. rewrite !Qle_bool_iff. intros H1.
    apply Qle_trans with (inject_Z m1); [|done]. by rewrite <- Zle_Qle.
Qed.

End tempo_more.

(** X7.  Tempo mode makes two requests when the candidates have string ids:
    one catalog search for the mood keyword followed by " upbeat dance",
    asking for three times the track limit, then one feature fetch for the
    candidates' ids, comma-joined in pool order. *)
Theorem generate_tempo_requests (W : World) (hd : headers) (weather : value)
    (min_bpm track_limit : Z) (kw : string) (ids : list string) :
  weather_to_keyword weather = Ok kw →
  track_ids
    (search_items
       (requests_get W search_url hd
          (search_params (kw +:+ " upbeat dance") (track_limit * 3))))
  = Ok (VStr <$> ids) →
  calls (generate_tempo W hd weather min_bpm track_limit)
  = [HttpGet "https://api.spotify.com/v1/search" hd
       [("q", VStr (kw +:+ " upbeat dance")); ("type", VStr "track");
        ("limit", VNum (inject_Z (track_limit * 3)))];
     HttpGet "https://api.spotify.com/v1/audio-features" hd
       [("ids", VStr (String.concat "," ids))]].
Proof.
  intros Hkw Hids. unfold generate_tempo. step Hkw.
  rewrite search_tracks_run, bind_Run_Ok. cbv beta zeta.
  step Hids. rewrite get_audio_features_run, bind_Run_Ok. reflexivity.
Qed.

Lemma generate_tempo_requests_witness :
  calls (generate_tempo world_one_null app_headers seoul 110 5)
  = [HttpGet "https://api.spotify.com/v1/search" app_headers
       [("q", VStr ("happy pop bright" +:+ " upbeat dance"));
        ("type", VStr "track"); ("limit", VNum (inject_Z (5 * 3)))];
     HttpGet "https://api.spotify.com/v1/audio-features" app_headers
       [("ids", VStr (String.concat "," ["a"; "b"]))]].
Proof.
  apply (generate_tempo_requests world_one_null app_headers seoul 110 5
           "happy pop bright" ["a"; "b"]); reflexivity.
Defined.

Section tempo_more_runs.

Context (W : World) (hd : headers) (weather : value).
Implicit Types (fmap : gmap key value) (t f : value) (s : string).
Implicit Types (pool feats kept : list value) (min_bpm track_limit : Z).

(** X8.  Whatever the threshold and the limit, Tempo mode returns candidates
    of the pool only, each at most as often as the pool has it and in the
    pool's order: the result is a sublist of the pool. *)
Theorem generate_tempo_sublist pool feats min_bpm track_limit :
  fetches W hd weather track_limit pool feats →
  Forall (λ t, is_track t = true) pool →
  Forall (λ f, is_feature_entry f = true) feats →
  ∃ r, outcome (generate_tempo W hd weather min_bpm track_limit) = Ok (VList r) ∧
       r `sublist_of` pool.
Proof.
  intros Hrun Hpool Hfeats.
  destruct (build_fmap_spec feats Hfeats) as (fmap & Hfmap & Hwf & _).
  assert (tempo_filter fmap min_bpm pool = Ok (passing fmap min_bpm pool))
    as Hkept.
  { apply tempo_filter_total. eapply Forall_impl; [exact Hpool|].
    intros t Ht. by apply keeps_total. }
  eexists. split.
  - rewrite (generate_tempo_outcome _ _ _ _ _ _ _ Hrun).
    by apply tempo_select_lists with fmap.
  - unfold Py.slice_to.
    assert (chosen pool (passing fmap min_bpm pool) `sublist_of` pool) as Hc.
    { unfold chosen. destruct (passing fmap min_bpm pool) eqn:E; [done|].
      rewrite <- E. apply sublist_filter. }
    destruct (0 <=? track_limit); (etrans; [apply sublist_take|exact Hc]).
Qed.

(** X9.  When the feature fetch brings no entries (it failed, or the catalog
    has none), Tempo mode returns the first [track_limit] candidates of its
    search, unfiltered. *)
Theorem generate_tempo_without_features pool min_bpm track_limit :
  fetches W hd weather track_limit pool [] →
  Forall (λ t, is_track t = true) pool →
  0 ≤ track_limit →
  outcome (generate_tempo W hd weather min_bpm track_limit)
  = Ok (VList (take (Z.to_nat track_limit) pool)).
Proof.
  intros Hrun Hpool Hlim.
  rewrite (generate_tempo_outcome _ _ _ _ _ _ _ Hrun).
  assert (Forall (λ t, keeps ∅ min_bpm t = Ok false) pool) as Hnone.
  { eapply Forall_impl; [exact Hpool|]. intros t [s Hs]%is_track_id.
    unfold keeps. by rewrite Hs. }
  rewrite (tempo_select_lists pool [] min_bpm track_limit ∅ []); [|done|].
  - by rewrite slice_to_nonneg.
  - rewrite tempo_filter_total.
    + by rewrite passing_none.
    + eapply Forall_impl; [exact Hnone|]. intros t Ht. by exists false.
Qed.

(** X10.  A feature record whose tempo is [null] (present, but not a
    number) makes Tempo mode raise when its track is among the candidates:
    the default of 0 only covers a missing field, and no fallback applies. *)
Theorem generate_tempo_null_tempo pool feats min_bpm track_limit fmap t s kv :
  fetches W hd weather track_limit pool feats →
  build_fmap (VList feats) = Ok fmap →
  t ∈ pool →
  Py.getitem t "id" = Ok (VStr s) →
  fmap !! KStr s = Some (VDict kv) →
  Py.dict_get "tempo" kv = Some VNone →
  ∃ e, outcome (generate_tempo W hd weather min_bpm track_limit) = Raise e.
Proof.
  intros Hrun Hfmap Hin Hs Hk Ht.
  assert (keeps fmap min_bpm t = Raise TypeError) as He.
  { unfold keeps. rewrite Hs, result_bind_Ok.
    cbn [Py.to_key]. rewrite result_bind_Ok, Hk. cbn [default from_option id].
    rewrite (dict_get_truthy _ _ _ Ht). unfold Py.get. by rewrite Ht. }
  destruct (tempo_filter_raises _ _ _ _ _ Hin He) as [e' He'].
  exists e'. rewrite (generate_tempo_outcome _ _ _ _ _ _ _ Hrun).
  unfold tempo_select. rewrite Hfmap, result_bind_Ok.
  cbn [Py.iter]. by rewrite result_bind_Ok, He'.
Qed.

End tempo_more_runs.

Lemma generate_tempo_sublist_witness :
  ∃ r, outcome (generate_tempo world_one_null app_headers seoul 110 5)
       = Ok (VList r) ∧
       r `sublist_of` [track "a"; track "b"].
Proof.
  apply (generate_tempo_sublist world_one_null app_headers seoul
           [track "a"; track "b"] [VNone; feature "b" 128] 110 5).
  - exists "happy pop bright", [VStr "a"; VStr "b"]. by vm_compute.
  - by repeat constructor.
  - by repeat constructor.
Defined.

Lemma generate_tempo_without_features_witness :
  outcome (generate_tempo world_no_features app_headers seoul 110 5)
  = Ok (VList (take (Z.to_nat 5) [track "a"; track "b"])).
Proof.
  apply (generate_tempo_without_features world_no_features app_headers seoul
           [track "a"; track "b"] 110 5).
  - exists "happy pop bright", [VStr "a"; VStr "b"]. by vm_compute.
  - by repeat constructor.
  - lia.
Defined.

Lemma generate_tempo_null_tempo_witness :
  ∃ e, outcome (generate_tempo world_null_tempo app_headers seoul 110 5)
       = Raise e.
Proof.
  apply (generate_tempo_null_tempo world_null_tempo app_headers seoul
           [track "a"] [feature_null_tempo "a"] 110 5
           (<[KStr "a" := feature_null_tempo "a"]> ∅) (track "a") "a"
           [("id", VStr "a"); ("tempo", VNone)]).
  - exists "happy pop bright", [VStr "a"]. by vm_compute.
  - reflexivity.
  - apply list_elem_of_singleton. reflexivity.
  - reflexivity.
  - by vm_compute.
  - reflexivity.
Defined.

(** X11.  Lowering the minimum BPM never loses a track: if the filter runs
    at a threshold it also runs at any lower one, and keeps at least the
    same tracks, in the same order. *)
Theorem tempo_filter_lower_threshold (fmap : gmap key value) (m1 m2 : Z)
    (pool kept1 : list value) :
  tempo_filter fmap m1 pool = Ok kept1 →
  m2 ≤ m1 →
  ∃ kept2, tempo_filter fmap m2 pool = Ok kept2 ∧ kept1 `sublist_of` kept2.
Proof.
  intros Hrun Hle. revert kept1 Hrun.
  induction pool as [|t pool IH]; intros kept1 Hrun.
  { injection Hrun as <-. by exists []. }
  cbn [tempo_filter] in *.
  pose proof (keeps_threshold_free fmap m1 m2 t) as Ht.
  destruct (keeps fmap m1 t) as [b1|]; [|done].
  destruct (keeps fmap m2 t) as [b2|]; [|done].
  rewrite result_bind_Ok in *.
  destruct (tempo_filter fmap m1 pool) as [rest1|]; [|done].
  rewrite result_bind_Ok in Hrun. injection Hrun as <-.
  destruct (IH rest1 eq_refl) as (rest2 & -> & Hsub).
  rewrite result_bind_Ok. eexists. split; [done|].
  destruct b1.
  - rewrite (Ht Hle eq_refl). by apply sublist_skip.
  - destruct b2; [by apply sublist_cons|done].
Qed.

Lemma tempo_filter_lower_threshold_witness :
  ∃ kept2,
    tempo_filter (<[KStr "b" := feature "b" 128]> ∅) 110
      [track "a"; track "b"] = Ok kept2 ∧
    [track "b"] `sublist_of` kept2.
Proof.
  apply (tempo_filter_lower_threshold (<[KStr "b" := feature "b" 128]> ∅)
           120 110 [track "a"; track "b"] [track "b"]).
  - by vm_compute.
  - lia.
Defined.

(** X12.  When the feature answer has several records for one track id, the
    last of them is the one the filter consults. *)
Theorem build_fmap_last_wins (feats1 feats2 : list value) (f : value)
    (s : string) (fmap : gmap key value) :
  build_fmap (VList (feats1 ++ f :: feats2)) = Ok fmap →
  entry_for s f →
  (∀ f', f' ∈ feats2 → ¬ entry_for s f') →
  fmap !! KStr s = Some f.
Proof.
  unfold build_fmap. cbn [Py.iter]. rewrite result_bind_Ok.
  rewrite fmap_insert_all_app. intros Hrun (kv & -> & Hid) Hno.
  destruct (fmap_insert_all feats1 ∅) as [fmap1|]; [|done].
  rewrite result_bind_Ok in Hrun. cbn [fmap_insert_all] in Hrun.
  rewrite (dict_get_truthy _ _ _ Hid) in Hrun. unfold Py.getitem in Hrun.
  rewrite Hid, result_bind_Ok in Hrun. cbn [Py.to_key] in Hrun.
  rewrite result_bind_Ok in Hrun.
  rewrite (fmap_insert_all_other _ _ _ _ Hrun Hno). apply lookup_insert_eq.
Qed.

Lemma build_fmap_last_wins_witness :
  (<[KStr "b" := feature "b" 90]>
     (<[KStr "a" := feature "a" 128]>
        (<[KStr "a" := feature "a" 100]> ∅)) : gmap key value)
  !! KStr "a" = Some (feature "a" 128).
Proof.
  apply (build_fmap_last_wins [feature "a" 100] [feature "b" 90]
           (feature "a" 128) "a").
  - reflexivity.
  - by eexists.
  - intros f' ->%list_elem_of_singleton (kv & [= <-] & Hid). done.
Defined.

(** X13.  The tempo test is "at least": a track whose record has a numeric
    tempo passes exactly when the tempo is greater than or equal to the
    minimum BPM, so a tempo equal to the threshold passes. *)
Theorem keeps_at_least (fmap : gmap key value) (min_bpm : Z) (t : value)
    (s : string) (kv : list (string * value)) (q : Q) :
  Py.getitem t "id" = Ok (VStr s) →
  fmap !! KStr s = Some (VDict kv) →
  Py.dict_get "tempo" kv = Some (VNum q) →
  keeps fmap min_bpm t = Ok true ↔ (inject_Z min_bpm <= q)%Q.
Proof.
  intros Hs Hk Ht. rewrite (keeps_tempo _ _ _ _ _ _ Hs Hk Ht).
  rewrite <- Qle_bool_iff. split; [by intros [= ->]|by intros ->].
Qed.

Lemma keeps_at_least_witness :
  keeps (<[KStr "a" := feature "a" 110]> ∅) 110 (track "a") = Ok true
  ↔ (inject_Z 110 <= 110)%Q.
Proof.
  apply (keeps_at_least (<[KStr "a" := feature "a" 110]> ∅) 110 (track "a")
           "a" [("id", VStr "a"); ("tempo", VNum 110)]).
  - reflexivity.
  - by vm_compute.
  - reflexivity.
Defined.

(** ** The run block, beyond the weather check *)

Lemma lift_Ok_bind {A B : Type} (a : A) (f : A → M B) : lift (Ok a) ≫= f = f a.
Proof. by apply outcome_lift_bind. Qed.

Lemma lift_Raise_bind {A B : Type} (e : exn) (f : A → M B) :
  lift (Raise e) ≫= f = Run [] (Raise e).
Proof. reflexivity. Qed.

Lemma bind_Run {A B : Type} (m : M A) (f : A → M B) (a : A) :
  outcome m = Ok a →
  m ≫= f = Run (calls m ++ calls (f a)) (outcome (f a)).
Proof. intros H. unfold mbind, M_bind. by rewrite H. Qed.

Lemma bind_Raise {A B : Type} (m : M A) (f : A → M B) (e : exn) :
  outcome m = Raise e → m ≫= f = Run (calls m) (Raise e).
Proof. intros H. unfold mbind, M_bind. by rewrite H. Qed.

(** The run block is the weather check followed by [present]. *)
Lemma run_present (W : World) (hd : headers) (inp : inputs) :
  run W hd inp
  = (weather ← get_weather W (city inp);
     failed ← lift (weather_failed weather);
     if (failed : bool) then
       emit (StError [Lit weather_error]);; stop
     else
       w ← lift (Py.getitem weather "weather");
       w0 ← lift (Py.getindex w 0);
       description ← lift (Py.getitem w0 "description");
       main ← lift (Py.getitem weather "main");
       temp ← lift (Py.getitem main "temp");
       emit (StSuccess [Fmt (VStr (city inp)); Lit " 현재 날씨: ";
                        Fmt description; Lit " / "; Fmt temp; Lit "°C"]);;
       tracks ← generate W hd weather inp;
       present W inp tracks).
Proof. reflexivity. Qed.

Lemma run_reading (W : World) (hd : headers) (inp : inputs)
    (r : WeatherReading) :
  requests_get W weather_url NoAuth (weather_params W (city inp))
  = Replies (Some (reading_json r)) →
  run W hd inp
  = Run ([HttpGet weather_url NoAuth (weather_params W (city inp));
          weather_line (city inp) r]
         ++ calls (generate W hd (reading_json r) inp ≫= present W inp))
        (outcome (generate W hd (reading_json r) inp ≫= present W inp)).
Proof.
  intros H. rewrite run_present, get_weather_run, H, bind_Run_Ok.
  cbv beta. cbn [weather_document].
  change (weather_failed (reading_json r)) with (@Ok bool false).
  rewrite lift_Ok_bind.
  change (Py.getitem (reading_json r) "weather")
    with (Ok (VList [VDict [("main", VStr (condition r));
                            ("description", VStr (description r))]])).
  rewrite lift_Ok_bind.
  change (Py.getindex (VList [VDict [("main", VStr (condition r));
                            ("description", VStr (description r))]]) 0)
    with (Ok (VDict [("main", VStr (condition r));
                     ("description", VStr (description r))])).
  rewrite lift_Ok_bind.
  change (Py.getitem (VDict [("main", VStr (condition r));
                     ("description", VStr (description r))]) "description")
    with (Ok (VStr (description r))).
  rewrite lift_Ok_bind.
  change (Py.getitem (reading_json r) "main")
    with (Ok (VDict [("temp", VNum (temperature_celsius r))])).
  rewrite lift_Ok_bind.
  change (Py.getitem (VDict [("temp", VNum (temperature_celsius r))]) "temp")
    with (Ok (VNum (temperature_celsius r))).
  rewrite lift_Ok_bind, emit_bind. reflexivity.
Qed.

Lemma weather_failed_dict_ok (kv : list (string * value)) :
  status_ok kv = true → weather_failed (VDict kv) = Ok false.
Proof.
  unfold status_ok, weather_failed. intros H.
  destruct kv as [|p kv]; [done|]. cbn [Py.truthy length negb bool_decide].
  unfold Py.get. rewrite result_bind_Ok. by rewrite H.
Qed.

(** X14.  A weather answer with status 200 but without a [weather] member
    ends the run with an uncaught [KeyError] right after the weather
    request: nothing is shown and no catalog search is made. *)
Theorem run_raises_without_conditions (W : World) (hd : headers)
    (inp : inputs) (kv : list (string * value)) :
  requests_get W weather_url NoAuth (weather_params W (city inp))
  = Replies (Some (VDict kv)) →
  status_ok kv = true →
  Py.dict_get "weather" kv = None →
  run W hd inp
  = Run [HttpGet weather_url NoAuth (weather_params W (city inp))]
        (Raise KeyError).
Proof.
  intros H Hok Hw. rewrite run_present, get_weather_run, H, bind_Run_Ok.
  cbv beta. cbn [weather_document].
  rewrite (weather_failed_dict_ok kv Hok), lift_Ok_bind.
  assert (Py.getitem (VDict kv) "weather" = Raise KeyError) as ->.
  { unfold Py.getitem. by rewrite Hw. }
  reflexivity.
Qed.

Lemma run_raises_without_conditions_witness :
  run world_no_conditions app_headers basic_5
  = Run [HttpGet weather_url NoAuth
           (weather_params world_no_conditions (city basic_5))]
        (Raise KeyError).
Proof.
  apply (run_raises_without_conditions world_no_conditions app_headers basic_5
           [("cod", VNum 200); ("name", VStr "Seoul")]); reflexivity.
Defined.

(** X15.  When the selected mode comes back with nothing (an empty list, as
    after a failed search), the run shows the weather line, warns
    "추천 결과가 없습니다." and stops: nothing is rendered and nothing is
    published, whatever the checkbox says. *)
Theorem run_no_results (W : World) (hd : headers) (inp : inputs)
    (r : WeatherReading) (tracks : value) :
  requests_get W weather_url NoAuth (weather_params W (city inp))
  = Replies (Some (reading_json r)) →
  outcome (generate W hd (reading_json r) inp) = Ok tracks →
  Py.truthy tracks = false →
  run W hd inp
  = Run ([HttpGet weather_url NoAuth (weather_params W (city inp));
          weather_line (city inp) r]
         ++ calls (generate W hd (reading_json r) inp)
         ++ [StWarning "추천 결과가 없습니다."])
        (Raise StopException).
Proof.
  intros H Hgen Hempty. rewrite (run_reading _ _ _ _ H).
  rewrite (bind_Run _ _ _ Hgen). unfold present. rewrite Hempty.
  reflexivity.
Qed.

Lemma run_no_results_witness :
  run world_empty_search app_headers basic_publish
  = Run ([HttpGet weather_url NoAuth
            (weather_params world_empty_search (city basic_publish));
          weather_line (city basic_publish) seoul_clear]
         ++ calls (generate world_empty_search app_headers
                     (reading_json seoul_clear) basic_publish)
         ++ [StWarning "추천 결과가 없습니다."])
        (Raise StopException).
Proof.
  apply (run_no_results world_empty_search app_headers basic_publish
           seoul_clear (VList [])); reflexivity.
Defined.

(** *** Runs that leave the user's account alone *)

Lemma no_spotipy_bind {A B : Type} (m : M A) (f : A → M B) :
  no_spotipy m → (∀ a, no_spotipy (f a)) → no_spotipy (m ≫= f).
Proof.
  unfold no_spotipy, mbind, M_bind. intros Hm Hf.
  destruct (outcome m) as [a|e]; [|done]. cbn. apply Forall_app. auto.
Qed.

Lemma no_spotipy_try {A : Type} (m : M A) (h : exn → M A) :
  no_spotipy m → (∀ e, no_spotipy (h e)) → no_spotipy (try_except m h).
Proof.
  unfold no_spotipy, try_except. intros Hm Hh.
  destruct (outcome m) as [a|e]; [done|]. cbn. apply Forall_app. auto.
Qed.

Lemma no_spotipy_lift {A : Type} (r : result A) : no_spotipy (lift r).
Proof. apply Forall_nil_2. Qed.

Lemma no_spotipy_emit (e : event) :
  is_spotipy_call e = false → no_spotipy (emit e).
Proof. intros H. by apply Forall_singleton. Qed.

Lemma no_spotipy_http_get (W : World) (url : string) (hd : headers)
    (params : list (string * value)) :
  no_spotipy (http_get W url hd params).
Proof.
  unfold http_get. apply no_spotipy_bind; [by apply no_spotipy_emit|].
  intros _. destruct (requests_get W url hd params); apply no_spotipy_lift.
Qed.

Ltac quiet :=
  repeat first
    [ apply no_spotipy_lift
    | apply no_spotipy_http_get
    | apply no_spotipy_emit; reflexivity
    | apply no_spotipy_try; [|intros ?]
    | apply no_spotipy_bind; [|intros ?] ].

Lemma no_spotipy_generate (W : World) (hd : headers) (weather : value)
    (inp : inputs) :
  no_spotipy (generate W hd weather inp).
Proof.
  unfold generate, generate_basic, generate_tempo, generate_custom,
    search_tracks, get_audio_features.
  destruct (selected inp); quiet.
Qed.

Lemma no_spotipy_render (i : nat) (ts : list value) : no_spotipy (render i ts).
Proof.
  revert i. induction ts as [|t ts IH]; intros i; [apply Forall_nil_2|].
  cbn [render]. quiet. apply IH.
Qed.

(** X16.  With the playlist checkbox off, a run never calls the spotipy
    client: no profile lookup, no playlist creation, no items added,
    whatever the services answer. *)
Theorem run_without_checkbox (W : World) (hd : headers) (inp : inputs) :
  make_playlist inp = false →
  Forall (λ e, is_spotipy_call e = false) (calls (run W hd inp)).
Proof.
  intros Hoff. change (no_spotipy (run W hd inp)). rewrite run_present.
  unfold get_weather.
  apply no_spotipy_bind; [quiet|]. intros weather.
  apply no_spotipy_bind; [quiet|]. intros [|]; [unfold stop; quiet|].
  quiet; [apply no_spotipy_generate|].
  unfold present. rewrite Hoff. destruct (negb _); [unfold stop; quiet|].
  quiet. apply no_spotipy_render.
Qed.

Lemma run_without_checkbox_witness :
  Forall (λ e, is_spotipy_call e = false)
    (calls (run world_six app_headers tempo_5)).
Proof.
  apply (run_without_checkbox world_six app_headers tempo_5). reflexivity.
Defined.

(** *** Rendering *)

Lemma render_cons_inv (i : nat) (t : value) (ts ids : list value) :
  outcome (render i (t :: ts)) = Ok ids →
  ∃ url name caption link uri rest,
    Py.getitem t "uri" = Ok uri ∧
    outcome (render (S i) ts) = Ok rest ∧
    ids = uri :: rest ∧
    calls (render i (t :: ts))
    = ([StImage (i mod 3) url;
        StMarkdown (Some (i mod 3)%nat) [Lit "**"; Fmt name; Lit "**"];
        StCaption (i mod 3) caption;
        StLinkButton (Some (i mod 3)%nat) "🎧 Spotify에서 듣기" link]
       ++ calls (render (S i) ts))%list.
Proof.
  cbn [render]. cbv zeta.
  repeat lazymatch goal with
  | |- context [lift ?r ≫= _] =>
      destruct r eqn:?;
      [rewrite lift_Ok_bind | rewrite lift_Raise_bind; by cbn [outcome]]
  | |- context [emit ?e ≫= _] => rewrite emit_bind; cbn [outcome calls]
  end.
  destruct (outcome (render (S i) ts)) as [rest|e] eqn:Hr;
    [rewrite (bind_Run _ _ _ Hr) | by rewrite (bind_Raise _ _ _ Hr)].
  cbn [outcome calls mret M_ret]. intros [= <-].
  eexists _, _, _, _, _, _. split_and!; [done..|]. by rewrite app_nil_r.
Qed.

Lemma render_uris (i : nat) (ts ids : list value) :
  outcome (render i ts) = Ok ids →
  mapM (λ t, Py.getitem t "uri") ts = Ok ids.
Proof.
  revert i ids. induction ts as [|t ts IH]; intros i ids H.
  { by injection H as <-. }
  destruct (render_cons_inv _ _ _ _ H)
    as (_ & _ & _ & _ & uri & rest & Huri & Hrest & -> & _).
  cbn [mapM]. by rewrite Huri, result_bind_Ok, (IH _ _ Hrest).
Qed.



(** *** Publishing from the run *)

Lemma run_shown (W : World) (hd : headers) (inp : inputs)
    (r : WeatherReading) (ts ids : list value) :
  requests_get W weather_url NoAuth (weather_params W (city inp))
  = Replies (Some (reading_json r)) →
  outcome (generate W hd (reading_json r) inp) = Ok (VList ts) →
  ts ≠ [] →
  outcome (render 0 ts) = Ok ids →
  make_playlist inp = true →
  run W hd inp
  = Run ([HttpGet weather_url NoAuth (weather_params W (city inp));
          weather_line (city inp) r]
         ++ calls (generate W hd (reading_json r) inp)
         ++ [StSubheader "🎶 추천 트랙"; StColumns 3]
         ++ calls (render 0 ts)
         ++ calls (publish W (city inp) ids))
        (outcome (publish W (city inp) ids)).
Proof.
  intros H Hgen Hne Hids Hon. rewrite (run_reading _ _ _ _ H).
  rewrite (bind_Run _ _ _ Hgen). unfold present.
  assert (Py.truthy (VList ts) = true) as -> by by destruct ts.
  cbn [negb]. rewrite !emit_bind. cbn [Py.iter]. rewrite lift_Ok_bind.
  rewrite (bind_Run _ _ _ Hids), Hon. reflexivity.
Qed.

Lemma publish_failure (W : World) (city : string) (ids : list value)
    (e : exn) :
  outcome (create_playlist_auto W city ids) = Raise e →
  publish W city ids
  = Run ([StMarkdown None [Lit "## 📀 Spotify 플레이리스트 생성 중..."]]
         ++ calls (create_playlist_auto W city ids)
         ++ [StError [Lit "플레이리스트 생성 실패: "; ExnText e]])
        (Ok ()).
Proof.
  intros H. unfold publish. rewrite emit_bind.
  unfold try_except. rewrite (bind_Raise _ _ _ H). reflexivity.
Qed.

Lemma publish_success (W : World) (city : string) (ids : list value)
    (link : value) :
  outcome (create_playlist_auto W city ids) = Ok link →
  publish W city ids
  = Run ([StMarkdown None [Lit "## 📀 Spotify 플레이리스트 생성 중..."]]
         ++ calls (create_playlist_auto W city ids)
         ++ [StSuccess [Lit "✅ 플레이리스트 생성 완료!"];
             StLinkButton None "🎶 Spotify에서 열기" link])
        (Ok ()).
Proof.
  intros H. unfold publish. rewrite emit_bind.
  unfold try_except. rewrite (bind_Run _ _ _ H). reflexivity.
Qed.





(** ** The playlist publisher, when a call fails *)

(** X20.  When adding the items fails after the playlist was created, the
    exception leaves the publisher as it is: the creation has been issued
    and is not undone, and no second attempt is made. *)
Theorem create_playlist_auto_add_fails (W : World) (city : string)
    (ids : list value) (profile user_id playlist pid : value) (e : exn) :
  me (get_spotify_client W) = Ok profile →
  Py.getitem profile "id" = Ok user_id →
  user_playlist_create (get_spotify_client W) user_id (playlist_name W city)
    false playlist_description = Ok playlist →
  Py.getitem playlist "id" = Ok pid →
  playlist_add_items (get_spotify_client W) pid ids = Raise e →
  create_playlist_auto W city ids
  = Run [SpMe;
         SpUserPlaylistCreate user_id (playlist_name W city) false
           playlist_description;
         SpPlaylistAddItems pid ids]
        (Raise e).
Proof.
  intros Hme Hid Hcreate Hpid Hadd. unfold create_playlist_auto.
  rewrite emit_bind. step Hme. step Hid. cbv zeta.
  rewrite emit_bind. step Hcreate. step Hpid.
  rewrite emit_bind, Hadd. reflexivity.
Qed.

Lemma create_playlist_auto_add_fails_witness :
  create_playlist_auto world_add_refused "Seoul" ten_uris
  = Run [SpMe;
         SpUserPlaylistCreate (VStr "user1")
           (playlist_name world_add_refused "Seoul") false
           playlist_description;
         SpPlaylistAddItems (VStr "pl1") ten_uris]
        (Raise SpotifyException).
Proof.
  apply (create_playlist_auto_add_fails world_add_refused "Seoul" ten_uris
           (VDict [("id", VStr "user1")]) (VStr "user1")
           (VDict [("id", VStr "pl1");
                   ("external_urls",
                    VDict [("spotify",
                            VStr "https://open.spotify.com/playlist/pl1")])])
           (VStr "pl1") SpotifyException);
    reflexivity.
Defined.

(** X21.  Whatever the client answers, the publisher's calls form a prefix
    of: profile lookup, one creation of a private playlist named after the
    city and the clock, one add-items call with the given URIs.  So it never
    creates before the user is known, never adds before the playlist
    exists, and never repeats a call. *)
Theorem create_playlist_auto_call_order (W : World) (city : string)
    (ids : list value) :
  ∃ user_id pid,
    calls (create_playlist_auto W city ids)
    `prefix_of`
    [SpMe;
     SpUserPlaylistCreate user_id (playlist_name W city) false
       playlist_description;
     SpPlaylistAddItems pid ids].
Proof.
  unfold create_playlist_auto. rewrite emit_bind. cbn [calls].
  destruct (me (get_spotify_client W)) as [profile|];
    [rewrite lift_Ok_bind|exists VNone, VNone; by eexists].
  destruct (Py.getitem profile "id") as [user_id|];
    [rewrite lift_Ok_bind|exists VNone, VNone; by eexists].
  cbv zeta. rewrite emit_bind. cbn [calls]. exists user_id.
  destruct (user_playlist_create _ _ _ _ _) as [playlist|];
    [rewrite lift_Ok_bind|exists VNone; by eexists].
  destruct (Py.getitem playlist "id") as [pid|];
    [rewrite lift_Ok_bind|exists VNone; by eexists].
  rewrite emit_bind. cbn [calls]. exists pid.
  destruct (playlist_add_items _ _ _) as [ack|];
    [rewrite lift_Ok_bind|by exists []].
  destruct (Py.getitem playlist "external_urls") as [urls|];
    [rewrite lift_Ok_bind|by exists []].
  by exists [].
Qed.

(** ** The status check and the start-up *)

(** X22.  For a weather answer that is an object, the run goes on exactly
    when its [cod] is a number equal to 200: a missing [cod], or the text
    "200", counts as a failure. *)
Theorem weather_failed_object (kv : list (string * value)) :
  weather_failed (VDict kv) = Ok false
  ↔ ∃ q, Py.dict_get "cod" kv = Some (VNum q) ∧ (q == 200)%Q.
Proof.
  unfold weather_failed. destruct kv as [|p kv].
  { split; [done|]. by intros (q & ? & _). }
  cbn [Py.truthy length negb bool_decide]. unfold Py.get.
  set (kv' := p :: kv). rewrite result_bind_Ok.
  destruct (Py.dict_get "cod" kv') as [cod|]; cbn [default from_option id].
  - destruct cod as [ | b | q | s | l | kv'' ]; cbn [Py.eq_int negb];
      try (split; [done|by intros (q' & ? & _)]).
    + split; [|by intros (q' & ? & _)]. by destruct b.
    + split.
      * intros [= H%negb_false_iff]. exists q. split; [done|].
        by apply Qeq_bool_iff.
      * intros (q' & [= <-] & H). apply Qeq_bool_iff in H.
        change (inject_Z 200) with (200 : Q). by rewrite H.
  - split; [done|]. by intros (q & ? & _).
Qed.

(** X23.  The start-up makes exactly one token request (client-credentials
    grant, client id and secret as basic auth).  For an answer that is an
    object, the searches then carry "Bearer <token>" when [access_token] is
    there and non-empty, and no [Authorization] header otherwise. *)
Theorem startup_headers (W : World) (kv : list (string * value)) :
  requests_post W "https://accounts.spotify.com/api/token"
    [("grant_type", VStr "client_credentials")]
    (SPOTIFY_CLIENT_ID W, SPOTIFY_CLIENT_SECRET W)
  = Replies (Some (VDict kv)) →
  startup W
  = Run [HttpPost "https://accounts.spotify.com/api/token"
           [("grant_type", VStr "client_credentials")]
           (SPOTIFY_CLIENT_ID W, SPOTIFY_CLIENT_SECRET W)]
        (Ok match Py.dict_get "access_token" kv with
            | Some tok => if Py.truthy tok then Bearer tok else NoAuth
            | None => NoAuth
            end).
Proof.
  intros H. unfold startup, get_app_token, http_post.
  rewrite emit_bind, H. cbn. by destruct (Py.dict_get "access_token" kv).
Qed.

Lemma startup_headers_witness :
  startup world_six
  = Run [HttpPost "https://accounts.spotify.com/api/token"
           [("grant_type", VStr "client_credentials")]
           (SPOTIFY_CLIENT_ID world_six, SPOTIFY_CLIENT_SECRET world_six)]
        (Ok match Py.dict_get "access_token"
                    [("access_token", VStr "app-token")] with
            | Some tok => if Py.truthy tok then Bearer tok else NoAuth
            | None => NoAuth
            end).
Proof.
  apply (startup_headers world_six [("access_token", VStr "app-token")]).
  reflexivity.
Defined.
